(** * feast_spark.client: the job-submission facade of feast-spark

    A shallow embedding of [python/feast_spark/client.py] and the properties
    of its feature-table resolution, entity staging and dual-mode dispatch. *)

From stdpp Require Import base option list strings.
From Stdlib Require Import ZArith NArith Ascii String Lia.

Local Open Scope string_scope.
Local Open Scope list_scope.

(** ** Python strings *)

Module Py.

(** [s.split(sep)] for a one-character separator: the pieces between the
    occurrences of [sep]; the result always has at least one piece. *)
Fixpoint split (sep : ascii) (s : string) : list string :=
  match s with
  | EmptyString => [EmptyString]
  | String c s' =>
      if Ascii.eqb c sep then EmptyString :: split sep s'
      else match split sep s' with
           | w :: ws => String c w :: ws
           | [] => [String c EmptyString]
           end
  end.

(** [l[0]] and [l[-1]] on a list of strings.  Python raises [IndexError] on
    the empty list; [split] never returns one ([split_not_nil]), so the
    default is never observed at the two call sites below. *)
Definition first (l : list string) : string := List.hd EmptyString l.
Definition final (l : list string) : string := List.last l EmptyString.

(** Truth value of a [str]: the empty string is false. *)
Definition truthy (s : string) : bool :=
  match s with EmptyString => false | String _ _ => true end.

(** Truth value of an [Optional[str]]: [None] and the empty string are false. *)
Definition truthy_opt (o : option string) : bool :=
  match o with None => false | Some s => truthy s end.

(** [a or b] on optional strings. *)
Definition or_else (a b : option string) : option string :=
  if truthy_opt a then a else b.

(** [a or b] on an optional list: [None] and the empty list are false. *)
Definition list_or {A} (a : option (list A)) (b : list A) : list A :=
  match a with
  | Some (x :: l) => x :: l
  | _ => b
  end.

(** [itertools.groupby(l, key)], each group made a list: the iterator walks
    [l] once, keeps the key of the running group and starts a new group each
    time the key of the next element differs from it. *)
Section Groupby.
Context {A K : Type} `{EqDecision K} (key : A → K).

Fixpoint groupby_from (tgtkey : K) (group : list A) (l : list A)
  : list (K * list A) :=
  match l with
  | [] => [(tgtkey, rev group)]
  | x :: l' =>
      if decide (key x = tgtkey) then groupby_from tgtkey (x :: group) l'
      else (tgtkey, rev group) :: groupby_from (key x) [x] l'
  end.

Definition groupby (l : list A) : list (K * list A) :=
  match l with
  | [] => []
  | x :: l' => groupby_from (key x) [x] l'
  end.
End Groupby.

End Py.

(** ** Data model (the parts of [feast] the client reads) *)

Record Feature := mkFeature {
  feature_name : string;
  feature_dtype : string }.

(** [feast.data_source]: the two batch sources.  [created_timestamp_column]
    is an [Optional[str]]. *)
Inductive DataSource :=
| FileSource (event_timestamp_column : string)
             (created_timestamp_column : option string)
             (file_format file_url : string)
| BigQuerySource (event_timestamp_column : string)
                 (created_timestamp_column : option string)
                 (table_ref : string).

Definition created_timestamp_column (s : DataSource) : option string :=
  match s with
  | FileSource _ c _ _ => c
  | BigQuerySource _ c _ => c
  end.

(** [isinstance(source, BigQuerySource)] *)
Definition is_BigQuerySource (s : DataSource) : bool :=
  match s with BigQuerySource _ _ _ => true | FileSource _ _ _ _ => false end.

Record FeatureTable := mkFeatureTable {
  ft_name : string;
  ft_entities : list string;
  ft_features : list Feature;
  ft_batch_source : DataSource }.

(** [feature_table.features = fs] *)
Definition set_features (ft : FeatureTable) (fs : list Feature) : FeatureTable :=
  {| ft_name := ft_name ft; ft_entities := ft_entities ft;
     ft_features := fs; ft_batch_source := ft_batch_source ft |}.

(** ** Exceptions *)

Inductive exn :=
| AssertionError (msg : string)
| IndexError
| AttributeError (attr : string)
| NoOptionError (option : string)
| ValueError (msg : string)
| NotFoundError (ctx : string)
| RpcError (details : string)
| StagingError (details : string).

Inductive result (A : Type) :=
| Ok (a : A)
| Raise (e : exn).
Arguments Ok {A} a.
Arguments Raise {A} e.

(** ** Feature-table resolution *)

Section Resolver.
(** [self._feast.get_feature_table(name, project)]: the metadata registry.
    Each call asks Feast Core and builds a new [FeatureTable] object from
    the answer, so the object the loop below updates is not shared with
    any other group's. *)
Variable get_feature_table : string → option string → result FeatureTable.

(** [lambda x: x.split(":")[0]] *)
Definition table_of_ref (x : string) : string := Py.first (Py.split ":" x).

(** [f.split(":")[-1]] *)
Definition feature_of_ref (f : string) : string := Py.final (Py.split ":" f).

(** One turn of the loop of [_get_feature_tables_from_feature_refs]. *)
Definition resolve_group (project : option string)
    (g : string * list string) : result FeatureTable :=
  let '(feature_table_name, grouped_feature_refs) := g in
  match get_feature_table feature_table_name project with
  | Raise e => Raise e
  | Ok feature_table =>
      let feature_names := map feature_of_ref grouped_feature_refs in
      Ok (set_features feature_table
            (filter (λ f, feature_name f ∈ feature_names)
                    (ft_features feature_table)))
  end.

(** The loop: tables are appended in group order; the first failing
    lookup ends the call. *)
Fixpoint resolve_groups (project : option string)
    (groups : list (string * list string))
    (feature_tables : list FeatureTable) : result (list FeatureTable) :=
  match groups with
  | [] => Ok feature_tables
  | g :: groups' =>
      match resolve_group project g with
      | Raise e => Raise e
      | Ok ft => resolve_groups project groups' (feature_tables ++ [ft])
      end
  end.

Definition _get_feature_tables_from_feature_refs
    (feature_refs : list string) (project : option string)
  : result (list FeatureTable) :=
  let feature_refs_grouped_by_table := Py.groupby table_of_ref feature_refs in
  resolve_groups project feature_refs_grouped_by_table [].
End Resolver.

(** ** Identifiers and paths *)

Module Uuid.

(** One hexadecimal digit, lower case. *)
Definition hex_digit (d : N) : ascii :=
  match d with
  | 0 => "0" | 1 => "1" | 2 => "2" | 3 => "3" | 4 => "4" | 5 => "5"
  | 6 => "6" | 7 => "7" | 8 => "8" | 9 => "9" | 10 => "a" | 11 => "b"
  | 12 => "c" | 13 => "d" | 14 => "e" | _ => "f"
  end%N%char.

(** The [w] low hexadecimal digits of [n], most significant first. *)
Fixpoint hex_fixed (w : nat) (n : N) : list ascii :=
  match w with
  | O => []
  | S w' => hex_fixed w' (n / 16) ++ [hex_digit (n mod 16)]
  end.

(** Number of hexadecimal digits of [n] (0 for 0). *)
Definition hex_len (n : N) : nat := N.to_nat ((N.size n + 3) / 4).

(** ['%032x' % n]: padded with zeros to 32 digits, longer if [n] needs it. *)
Definition format_032x (n : N) : list ascii :=
  hex_fixed (Nat.max 32 (hex_len n)) n.

(** [str(UUID(int=n))]:
    ['%s-%s-%s-%s-%s' % (hex[:8], hex[8:12], hex[12:16], hex[16:20], hex[20:])] *)
Definition str (n : N) : string :=
  let hex := format_032x n in
  string_of_list_ascii
    (take 8 hex ++ ["-"%char] ++ take 4 (drop 8 hex) ++ ["-"%char] ++
     take 4 (drop 12 hex) ++ ["-"%char] ++ take 4 (drop 16 hex) ++
     ["-"%char] ++ drop 20 hex).

End Uuid.

Module os_path.

Definition startswith_sep (s : string) : bool :=
  match s with String "/" _ => true | _ => false end.

Fixpoint endswith_sep (s : string) : bool :=
  match s with
  | EmptyString => false
  | String c EmptyString => Ascii.eqb c "/"
  | String _ s' => endswith_sep s'
  end.

(** [os.path.join(a, b)] (posixpath). *)
Definition join (a b : string) : string :=
  if startswith_sep b then b
  else if negb (Py.truthy a) || endswith_sep a then a ++ b
  else a ++ "/" ++ b.

End os_path.

(** ** Configuration: [feast.constants.ConfigOptions] and [feast.config.Config] *)

Inductive opt :=
| JOB_SERVICE_URL
| JOB_SERVICE_ENABLE_SSL
| JOB_SERVICE_SERVER_SSL_CERT
| ENABLE_AUTH
| GRPC_CONNECTION_TIMEOUT
| SPARK_STAGING_LOCATION
| HISTORICAL_FEATURE_OUTPUT_LOCATION
| HISTORICAL_FEATURE_OUTPUT_FORMAT.

(** The accessors of [Config] the client calls.  [exists] tells whether an
    option is set; the getters raise when it is not or does not parse. *)
Record Config := mkConfig {
  cfg_exists : opt → bool;
  cfg_get : opt → result string;
  cfg_getboolean : opt → result bool;
  cfg_getint : opt → result Z }.

(** ** Protobuf timestamps *)

(** A naive [datetime], as microseconds since the epoch. *)
Definition Datetime := Z.

Record Timestamp := mkTimestamp { seconds : Z; nanos : Z }.

Definition FromDatetime (dt : Datetime) : Timestamp :=
  {| seconds := (dt / 1000000)%Z; nanos := ((dt mod 1000000) * 1000)%Z |}.

Definition ToDatetime (t : Timestamp) : Datetime :=
  (seconds t * 1000000 + nanos t / 1000)%Z.

(** ** The job service: channel, stub, requests and responses *)

Definition GrpcParams := list (string * string).

(** The arguments of [create_grpc_channel]. *)
Record Channel := mkChannel {
  ch_url : string;
  ch_enable_ssl : bool;
  ch_enable_auth : bool;
  ch_ssl_server_cert_path : string;
  ch_auth_metadata_plugin : option string;
  ch_timeout : Z }.

(** A [JobServiceStub] object.  [stub_id] is the identity of the object:
    two stubs are the same object when their identities are equal. *)
Record JobServiceStub := mkStub {
  stub_id : nat;
  stub_channel : Channel }.

Inductive Request :=
| GetHistoricalFeaturesRequest (feature_refs : list string)
    (entity_source : DataSource) (project : option string)
    (output_format output_location : string)
| StartOfflineToOnlineIngestionJobRequest (project : option string)
    (table_name : string) (start_date end_date : Timestamp)
| StartStreamToOnlineIngestionJobRequest (project : option string)
    (table_name : string)
| ListJobsRequest (include_terminated : bool) (table_name : option string)
| GetJobRequest (job_id : string).

Record GetHistoricalFeaturesResponse := mkGetHistoricalFeaturesResponse {
  ghf_id : string;
  ghf_output_file_uri : string;
  ghf_job_start_time : Timestamp;
  ghf_log_uri : string }.

(** The response of both ingestion RPCs. *)
Record StartJobResponse := mkStartJobResponse {
  sj_id : string;
  sj_job_start_time : Timestamp;
  sj_log_uri : string }.

Inductive JobType := RETRIEVAL_JOB | BATCH_INGESTION_JOB | STREAM_INGESTION_JOB.

(** A job descriptor of [ListJobs] and [GetJob].  [job_meta] is the
    output location of a retrieval job and the table name of an ingestion
    job. *)
Record JobProto := mkJobProto {
  job_id : string;
  job_type : JobType;
  job_start_time : Timestamp;
  job_meta : string;
  job_log_uri : string }.

Record TableReference := mkTableReference {
  tr_project : string;
  tr_dataset_id : string;
  tr_table_id : string }.

(** [start_time] of a remote handle: the client stores a [datetime] in some
    handles and the protobuf [Timestamp] itself in others. *)
Inductive StartTime :=
| as_datetime (d : Datetime)
| as_timestamp (t : Timestamp).

(** ** The local launcher: the calls into [feast_spark.pyspark.launcher] *)

Module launcher.
Inductive Call :=
| start_historical_feature_retrieval_job (project : option string)
    (entity_source : DataSource) (feature_tables : list FeatureTable)
    (output_format output_path : string)
| start_offline_to_online_ingestion (project : option string)
    (feature_table : FeatureTable) (start end_ : Datetime)
| start_stream_to_online_ingestion (project : option string)
    (feature_table : FeatureTable) (extra_jars : list string)
| list_jobs (include_terminated : bool) (table_name : option string)
| get_job_by_id (job_id : string).
End launcher.

(** What the client does to the staging area and to the job backends, in
    the order it does it.  Reading the configuration and the registry is
    not recorded. *)
Inductive Event {DataFrame : Type} :=
| CreateChannel (channel : Channel)
| Rpc (stub : JobServiceStub) (request : Request) (kwargs : option GrpcParams)
| Launch (call : launcher.Call)
| StageToBigQuery (entity_source : DataFrame) (project dataset : string)
| StageToFileSystem (entity_source : DataFrame) (staging_location : string).
Arguments Event : clear implicits.

Definition is_remote {D} (e : Event D) : bool :=
  match e with CreateChannel _ | Rpc _ _ _ => true | _ => false end.
Definition is_rpc {D} (e : Event D) : bool :=
  match e with Rpc _ _ _ => true | _ => false end.
Definition is_launch {D} (e : Event D) : bool :=
  match e with Launch _ => true | _ => false end.
Definition is_staging {D} (e : Event D) : bool :=
  match e with StageToBigQuery _ _ _ | StageToFileSystem _ _ => true | _ => false end.
Definition is_create_channel {D} (e : Event D) : bool :=
  match e with CreateChannel _ => true | _ => false end.

(** The output location a submission of a retrieval job carries. *)
Definition output_location_of {D} (e : Event D) : option string :=
  match e with
  | Rpc _ (GetHistoricalFeaturesRequest _ _ _ _ l) _ => Some l
  | Launch (launcher.start_historical_feature_retrieval_job _ _ _ _ l) => Some l
  | _ => None
  end.

(** [self._feast]: the [feast.Client] the facade wraps. *)
Record FeastClient := mkFeastClient {
  project : option string;
  _config : Config;
  _extra_grpc_params : GrpcParams;
  _auth_metadata : option string;
  get_feature_table : string → option string → result FeatureTable }.

(** [entity_source: Union[pd.DataFrame, FileSource, BigQuerySource]] *)
Inductive EntitySource {DataFrame : Type} :=
| InMemory (df : DataFrame)
| Staged (source : DataSource).
Arguments EntitySource : clear implicits.

(** The job handles the client returns: what the launcher gave back, or
    one of the three remote handles of [feast_spark.remote_job]. *)
Inductive SparkJob {LocalJob : Type} :=
| Local (job : LocalJob)
| RemoteRetrievalJob (service : option JobServiceStub)
    (grpc_extra_param_provider : GrpcParams) (job_id : string)
    (output_file_uri : string) (start_time : StartTime) (log_uri : string)
| RemoteBatchIngestionJob (service : option JobServiceStub)
    (grpc_extra_param_provider : GrpcParams) (job_id : string)
    (feature_table : string) (start_time : StartTime) (log_uri : string)
| RemoteStreamIngestionJob (service : option JobServiceStub)
    (grpc_extra_param_provider : GrpcParams) (job_id : string)
    (feature_table : string) (start_time : StartTime) (log_uri : string).
Arguments SparkJob : clear implicits.

(** Modelled from the spec: [feast_spark.remote_job.get_remote_job_from_proto]
    is not among the sources.  It maps a job descriptor to the handle variant
    named by the descriptor's job-type discriminant (historical retrieval,
    batch ingestion or stream ingestion). *)
Definition get_remote_job_from_proto {LocalJob : Type}
    (service : option JobServiceStub) (grpc_extra_param_provider : GrpcParams)
    (job : JobProto) : SparkJob LocalJob :=
  match job_type job with
  | RETRIEVAL_JOB =>
      RemoteRetrievalJob service grpc_extra_param_provider (job_id job)
        (job_meta job) (as_datetime (ToDatetime (job_start_time job)))
        (job_log_uri job)
  | BATCH_INGESTION_JOB =>
      RemoteBatchIngestionJob service grpc_extra_param_provider (job_id job)
        (job_meta job) (as_datetime (ToDatetime (job_start_time job)))
        (job_log_uri job)
  | STREAM_INGESTION_JOB =>
      RemoteStreamIngestionJob service grpc_extra_param_provider (job_id job)
        (job_meta job) (as_datetime (ToDatetime (job_start_time job)))
        (job_log_uri job)
  end.

(** Modelled from the spec: the lookup of a job by id in a backend (the
    launcher's [get_job_by_id] and the job service's [GetJob] are not among
    the sources).  An id the backend does not know fails with
    [NotFoundError], the id echoed in the error. *)
Fixpoint backend_get_job {J : Type} (jobs : list (string * J)) (id : string)
  : result J :=
  match jobs with
  | [] => Raise (NotFoundError id)
  | (k, j) :: jobs' => if decide (k = id) then Ok j else backend_get_job jobs' id
  end.

(** ** The collaborators, the state and the monad of the client *)

Section Client.
(** [DataFrame]: an in-memory entity table; [LocalJob]: a handle of the
    launcher; [B]: the state of everything outside the process (staging
    area, clusters, job service). *)
Context {DataFrame LocalJob B : Type}.

(** The functions the client imports.  [uuid4 k] is the [k]-th identifier
    the process draws; [table_reference_from_string] parses a table
    reference; every other function answers from the outside state and may
    change it. *)
Record Collaborators := mkCollaborators {
  uuid4 : nat → N;
  table_reference_from_string : string → result TableReference;
  stage_entities_to_bq :
    B → DataFrame → string → string → result DataSource * B;
  stage_entities_to_fs :
    B → DataFrame → string → Config → result DataSource * B;
  launcher_start : B → launcher.Call → result LocalJob * B;
  launcher_list_jobs : B → launcher.Call → result (list LocalJob) * B;
  launcher_get_job_by_id : B → launcher.Call → result LocalJob * B;
  svc_GetHistoricalFeatures :
    B → Request → result GetHistoricalFeaturesResponse * B;
  svc_StartOfflineToOnlineIngestionJob :
    B → Request → result StartJobResponse * B;
  svc_StartStreamToOnlineIngestionJob :
    B → Request → result StartJobResponse * B;
  svc_ListJobs : B → Request → result (list JobProto) * B;
  svc_GetJob : B → Request → result JobProto * B }.

(** The attributes of the [Client] object that change, the counters of
    the process and the outside state.
    [_job_service_stub] holds Python's [None] or a stub;
    [_job_service_service_stub] is [None] while the object has no such
    attribute. *)
Record State := mkState {
  _job_service_stub : option JobServiceStub;
  _job_service_service_stub : option JobServiceStub;
  objects_created : nat;
  uuids_drawn : nat;
  world : B }.

(** A computation: from a state to a value or an exception, the events it
    caused and the state it leaves. *)
Definition M (A : Type) : Type :=
  State → result A * list (Event DataFrame) * State.

#[export] Instance M_ret : MRet M := λ A a s, (Ok a, [], s).

#[export] Instance M_bind : MBind M := λ A C f m s,
  match m s with
  | (Ok a, t, s1) => let '(r, t', s2) := f a s1 in (r, t ++ t', s2)
  | (Raise e, t, s1) => (Raise e, t, s1)
  end.

Definition raise {A} (e : exn) : M A := λ s, (Raise e, [], s).

Definition lift {A} (r : result A) : M A := λ s, (r, [], s).

Definition emit (e : Event DataFrame) : M unit := λ s, (Ok (), [e], s).

(** A call of a collaborator on the outside state. *)
Definition extern {A} (f : B → result A * B) : M A := λ s,
  let '(r, w) := f (world s) in
  (r, [],
   {| _job_service_stub := _job_service_stub s;
      _job_service_service_stub := _job_service_service_stub s;
      objects_created := objects_created s;
      uuids_drawn := uuids_drawn s;
      world := w |}).

Definition value {A} (o : result A * list (Event DataFrame) * State) := o.1.1.
Definition trace {A} (o : result A * list (Event DataFrame) * State) := o.1.2.
Definition final {A} (o : result A * list (Event DataFrame) * State) := o.2.

Variable env : Collaborators.
Variable _feast : FeastClient.

(** [Client.__init__]: the state of a new client, in a process that has
    made [objects] objects and drawn [uuids] identifiers so far. *)
Definition __init__ (objects uuids : nat) (w : B) : State :=
  {| _job_service_stub := None;
     _job_service_service_stub := None;
     objects_created := objects;
     uuids_drawn := uuids;
     world := w |}.

Definition config : Config := _config _feast.

Definition _use_job_service : bool := cfg_exists config JOB_SERVICE_URL.

(** [uuid.uuid4()] *)
Definition draw_uuid : M N := λ s,
  (Ok (uuid4 env (uuids_drawn s)), [],
   {| _job_service_stub := _job_service_stub s;
      _job_service_service_stub := _job_service_service_stub s;
      objects_created := objects_created s;
      uuids_drawn := S (uuids_drawn s);
      world := world s |}).

(** [JobServiceStub(channel)]: a new object. *)
Definition new_JobServiceStub (channel : Channel) : M JobServiceStub := λ s,
  (Ok {| stub_id := objects_created s; stub_channel := channel |}, [],
   {| _job_service_stub := _job_service_stub s;
      _job_service_service_stub := _job_service_service_stub s;
      objects_created := S (objects_created s);
      uuids_drawn := uuids_drawn s;
      world := world s |}).

(** Reading [self._job_service_stub] and
    [self._job_service_service_stub]. *)
Definition get__job_service_stub : M (option JobServiceStub) :=
  λ s, (Ok (_job_service_stub s), [], s).

Definition get__job_service_service_stub : M JobServiceStub := λ s,
  match _job_service_service_stub s with
  | Some stub => (Ok stub, [], s)
  | None => (Raise (AttributeError "_job_service_service_stub"), [], s)
  end.

(** [self._job_service_service_stub = stub] *)
Definition set__job_service_service_stub (stub : JobServiceStub) : M unit :=
  λ s,
  (Ok (), [],
   {| _job_service_stub := _job_service_stub s;
      _job_service_service_stub := Some stub;
      objects_created := objects_created s;
      uuids_drawn := uuids_drawn s;
      world := world s |}).

(** [create_grpc_channel(...)]: the channel connects lazily, so creating
    it only records the event. *)
Definition create_grpc_channel (url : string) (enable_ssl enable_auth : bool)
    (ssl_server_cert_path : string) (auth_metadata_plugin : option string)
    (timeout : Z) : M Channel :=
  let channel := mkChannel url enable_ssl enable_auth ssl_server_cert_path
                   auth_metadata_plugin timeout in
  emit (CreateChannel channel);; mret channel.

(** The property [_job_service]. *)
Definition _job_service : M (option JobServiceStub) :=
  if negb _use_job_service then mret None
  else
    stub ← get__job_service_stub;
    (if negb (bool_decide (is_Some stub)) then
       url ← lift (cfg_get config JOB_SERVICE_URL);
       enable_ssl ← lift (cfg_getboolean config JOB_SERVICE_ENABLE_SSL);
       enable_auth ← lift (cfg_getboolean config ENABLE_AUTH);
       ssl_server_cert_path ← lift (cfg_get config JOB_SERVICE_SERVER_SSL_CERT);
       timeout ← lift (cfg_getint config GRPC_CONNECTION_TIMEOUT);
       channel ← create_grpc_channel url enable_ssl enable_auth
                   ssl_server_cert_path (_auth_metadata _feast) timeout;
       new ← new_JobServiceStub channel;
       set__job_service_service_stub new
     else mret ());;
    stub' ← get__job_service_service_stub;
    mret (Some stub').

(** A method call on what [_job_service] returned. *)
Definition call_service {R} (service : option JobServiceStub)
    (method : string) (rpc : B → Request → result R * B)
    (request : Request) (kwargs : option GrpcParams) : M R :=
  match service with
  | None => raise (AttributeError method)
  | Some stub => emit (Rpc stub request kwargs);; extern (λ w, rpc w request)
  end.

(** A call into the launcher. *)
Definition call_launcher {R} (f : B → launcher.Call → result R * B)
    (call : launcher.Call) : M R :=
  emit (Launch call);; extern (λ w, f w call).

Definition assert_ (cond : bool) (msg : string) : M unit :=
  if cond then mret () else raise (AssertionError msg).

(** ** The methods of [Client] *)

(** Lines 146-150: the output location of a retrieval job. *)
Definition compute_output_location (output_location : option string)
  : M string :=
  match output_location with
  | Some l => mret l
  | None =>
      base ← lift (cfg_get config HISTORICAL_FEATURE_OUTPUT_LOCATION);
      u ← draw_uuid;
      mret (os_path.join base (Uuid.str u))
  end.

(** Lines 156-174: staging of an in-memory entity table. *)
Definition stage_entity_source (entity_source : EntitySource DataFrame)
    (feature_sources : list DataSource) : M DataSource :=
  match entity_source with
  | InMemory df =>
      if existsb is_BigQuerySource feature_sources then
        match filter (λ source, is_BigQuerySource source = true)
                     feature_sources with
        | BigQuerySource _ _ table_ref :: _ =>
            source_ref ← lift (table_reference_from_string env table_ref);
            emit (StageToBigQuery df (tr_project source_ref)
                    (tr_dataset_id source_ref));;
            extern (λ w, stage_entities_to_bq env w df
                           (tr_project source_ref) (tr_dataset_id source_ref))
        | FileSource _ _ _ _ :: _ => raise (AttributeError "bigquery_options")
        | [] => raise IndexError
        end
      else
        staging_location ← lift (cfg_get config SPARK_STAGING_LOCATION);
        emit (StageToFileSystem df staging_location);;
        extern (λ w, stage_entities_to_fs env w df staging_location config)
  | Staged source => mret source
  end.

(** Lines 176-203: the mode branch of a retrieval. *)
Definition dispatch_retrieval (feature_refs : list string)
    (feature_tables : list FeatureTable) (entity_source : DataSource)
    (output_format output_location : string) : M (SparkJob LocalJob) :=
  if _use_job_service then
    service ← _job_service;
    response ← call_service service "GetHistoricalFeatures"
                 (svc_GetHistoricalFeatures env)
                 (GetHistoricalFeaturesRequest feature_refs entity_source
                    (project _feast) output_format output_location)
                 (Some (_extra_grpc_params _feast));
    service' ← _job_service;
    mret (RemoteRetrievalJob service' (_extra_grpc_params _feast)
            (ghf_id response) (ghf_output_file_uri response)
            (as_datetime (ToDatetime (ghf_job_start_time response)))
            (ghf_log_uri response))
  else
    job ← call_launcher (launcher_start env)
             (launcher.start_historical_feature_retrieval_job
                (project _feast) entity_source feature_tables
                output_format output_location);
    mret (Local job).

Definition get_historical_features (feature_refs : list string)
    (entity_source : EntitySource DataFrame)
    (output_location : option string) : M (SparkJob LocalJob) :=
  feature_tables ← lift (_get_feature_tables_from_feature_refs
                           (get_feature_table _feast) feature_refs
                           (project _feast));
  assert_ (forallb (λ ft, Py.truthy_opt
                            (created_timestamp_column (ft_batch_source ft)))
                   feature_tables)
    "All BatchSources attached to retrieved FeatureTables must have specified `created_timestamp_column` to be used in historical dataset generation.";;
  output_location ← compute_output_location output_location;
  output_format ← lift (cfg_get config HISTORICAL_FEATURE_OUTPUT_FORMAT);
  let feature_sources := map ft_batch_source feature_tables in
  entity_source ← stage_entity_source entity_source feature_sources;
  dispatch_retrieval feature_refs feature_tables entity_source
    output_format output_location.

Definition start_offline_to_online_ingestion (feature_table : FeatureTable)
    (start end_ : Datetime) : M (SparkJob LocalJob) :=
  if negb _use_job_service then
    job ← call_launcher (launcher_start env)
             (launcher.start_offline_to_online_ingestion
                (project _feast) feature_table start end_);
    mret (Local job)
  else
    let request :=
      StartOfflineToOnlineIngestionJobRequest (project _feast)
        (ft_name feature_table) (FromDatetime start) (FromDatetime end_) in
    service ← _job_service;
    response ← call_service service "StartOfflineToOnlineIngestionJob"
                 (svc_StartOfflineToOnlineIngestionJob env) request None;
    service' ← _job_service;
    mret (RemoteBatchIngestionJob service' (_extra_grpc_params _feast)
            (sj_id response) (ft_name feature_table)
            (as_datetime (ToDatetime (sj_job_start_time response)))
            (sj_log_uri response)).

Definition start_stream_to_online_ingestion (feature_table : FeatureTable)
    (extra_jars : option (list string)) (project_arg : option string)
  : M (SparkJob LocalJob) :=
  if negb _use_job_service then
    job ← call_launcher (launcher_start env)
             (launcher.start_stream_to_online_ingestion
                (Py.or_else project_arg (project _feast)) feature_table
                (Py.list_or extra_jars []));
    mret (Local job)
  else
    let request :=
      StartStreamToOnlineIngestionJobRequest (project _feast)
        (ft_name feature_table) in
    service ← _job_service;
    response ← call_service service "StartStreamToOnlineIngestionJob"
                 (svc_StartStreamToOnlineIngestionJob env) request None;
    service' ← _job_service;
    mret (RemoteStreamIngestionJob service' (_extra_grpc_params _feast)
            (sj_id response) (ft_name feature_table)
            (as_timestamp (sj_job_start_time response))
            (sj_log_uri response)).

(** The comprehension of [list_jobs]: [self._job_service] is read once
    for each job of the response. *)
Fixpoint remote_jobs_from_protos (jobs : list JobProto)
  : M (list (SparkJob LocalJob)) :=
  match jobs with
  | [] => mret []
  | job :: jobs' =>
      service ← _job_service;
      let h := get_remote_job_from_proto service
                 (_extra_grpc_params _feast) job in
      hs ← remote_jobs_from_protos jobs';
      mret (h :: hs)
  end.

Definition list_jobs (include_terminated : bool) (table_name : option string)
  : M (list (SparkJob LocalJob)) :=
  if negb _use_job_service then
    jobs ← call_launcher (launcher_list_jobs env)
              (launcher.list_jobs include_terminated table_name);
    mret (map Local jobs)
  else
    let request := ListJobsRequest include_terminated table_name in
    service ← _job_service;
    response ← call_service service "ListJobs" (svc_ListJobs env) request None;
    remote_jobs_from_protos response.

Definition get_job_by_id (job_id : string) : M (SparkJob LocalJob) :=
  if negb _use_job_service then
    job ← call_launcher (launcher_get_job_by_id env)
             (launcher.get_job_by_id job_id);
    mret (Local job)
  else
    let request := GetJobRequest job_id in
    service ← _job_service;
    response ← call_service service "GetJob" (svc_GetJob env) request None;
    service' ← _job_service;
    mret (get_remote_job_from_proto service' (_extra_grpc_params _feast)
            response).

End Client.

(** ** The words of the specification *)

(** The substring of [s] before the first [sep] (all of [s] when it has
    none). *)
Fixpoint before_first (sep : ascii) (s : string) : string :=
  match s with
  | EmptyString => EmptyString
  | String c s' =>
      if Ascii.eqb c sep then EmptyString else String c (before_first sep s')
  end.

Fixpoint contains (sep : ascii) (s : string) : bool :=
  match s with
  | EmptyString => false
  | String c s' => Ascii.eqb c sep || contains sep s'
  end.

Fixpoint adjacent_keys_differ {K A : Type} (gs : list (K * list A)) : Prop :=
  match gs with
  | g :: (h :: _) as gs' => g.1 ≠ h.1 ∧ adjacent_keys_differ gs'
  | _ => True
  end.

(** [gs] cuts [l] into its contiguous runs of equal key: the runs put end
    to end give [l] back, no run is empty, a run carries the key of all its
    elements, and two neighbouring runs have different keys. *)
Definition contiguous_runs {A K : Type} (key : A → K) (l : list A)
    (gs : list (K * list A)) : Prop :=
  List.concat (map snd gs) = l ∧
  Forall (λ g, g.2 ≠ [] ∧ Forall (λ x, key x = g.1) g.2) gs ∧
  adjacent_keys_differ gs.

(** [ft] is the registry's table [t] with its features cut down to the
    names requested by the references [refs], in the registry's order. *)
Definition pruned_to (t : FeatureTable) (refs : list string)
    (ft : FeatureTable) : Prop :=
  ft_name ft = ft_name t ∧ ft_entities ft = ft_entities t ∧
  ft_batch_source ft = ft_batch_source t ∧
  ft_features ft =
    filter (λ f, feature_name f ∈ map feature_of_ref refs) (ft_features t).

(** ** Footprints of computations *)

Section Footprint.
Context {DataFrame B : Type}.

(** Every event [m] causes satisfies [P], whatever the state and the
    outcome. *)
Definition only {A} (P : Event DataFrame → Prop)
    (m : M (DataFrame:=DataFrame) (B:=B) A) : Prop :=
  ∀ s, Forall P (trace (m s)).

(** When [m] returns, it has caused an event satisfying [P]. *)
Definition emits {A} (P : Event DataFrame → Prop)
    (m : M (DataFrame:=DataFrame) (B:=B) A) : Prop :=
  ∀ s a, value (m s) = Ok a → Exists P (trace (m s)).

(** [m] leaves the part [part] of the state as it is. *)
Definition keeps {A X} (part : State (B:=B) → X)
    (m : M (DataFrame:=DataFrame) (B:=B) A) : Prop :=
  ∀ s, part (final (m s)) = part s.

(** [part] looks only at [_job_service_stub] and at the count of
    identifiers drawn. *)
Definition ignores_rest {X} (part : State (B:=B) → X) : Prop :=
  ∀ s cached objects w,
    part {| _job_service_stub := _job_service_stub s;
            _job_service_service_stub := cached;
            objects_created := objects;
            uuids_drawn := uuids_drawn s;
            world := w |} = part s.
End Footprint.

(** The state [_job_service] leaves when it has built a stub on [channel]. *)
Definition with_new_stub {B : Type} (s : State (B:=B)) (channel : Channel)
  : State (B:=B) :=
  {| _job_service_stub := _job_service_stub s;
     _job_service_service_stub :=
       Some {| stub_id := objects_created s; stub_channel := channel |};
     objects_created := S (objects_created s);
     uuids_drawn := uuids_drawn s;
     world := world s |}.

(** The state [uuid.uuid4()] leaves. *)
Definition with_uuid_drawn {B : Type} (s : State (B:=B)) : State (B:=B) :=
  {| _job_service_stub := _job_service_stub s;
     _job_service_service_stub := _job_service_service_stub s;
     objects_created := objects_created s;
     uuids_drawn := S (uuids_drawn s);
     world := world s |}.

(** If [e] is a call of the job service, it carries [request] and the
    keyword arguments [kwargs]. *)
Definition rpc_is {D : Type} (request : Request) (kwargs : option GrpcParams)
    (e : Event D) : Prop :=
  ∀ stub r k, e = Rpc stub r k → r = request ∧ k = kwargs.

(** [m] goes the way the configuration says.  With the job-service URL
    set it never calls the launcher and, when it returns, it has called the
    job service; without the URL it never creates a channel or calls the
    job service and, when it returns, it has called the launcher. *)
Definition follows_mode {DataFrame B A : Type} (_feast : FeastClient)
    (m : M (DataFrame:=DataFrame) (B:=B) A) : Prop :=
  if _use_job_service _feast
  then only (λ e, is_launch e = false) m ∧ emits (λ e, is_rpc e = true) m
  else only (λ e, is_remote e = false) m ∧ emits (λ e, is_launch e = true) m.

(** The channel the configuration describes: the five options
    [_job_service] reads, in the order it reads them. *)
Definition configured_channel (_feast : FeastClient) : result Channel :=
  let config := _config _feast in
  match cfg_get config JOB_SERVICE_URL with
  | Raise e => Raise e
  | Ok url =>
  match cfg_getboolean config JOB_SERVICE_ENABLE_SSL with
  | Raise e => Raise e
  | Ok enable_ssl =>
  match cfg_getboolean config ENABLE_AUTH with
  | Raise e => Raise e
  | Ok enable_auth =>
  match cfg_get config JOB_SERVICE_SERVER_SSL_CERT with
  | Raise e => Raise e
  | Ok ssl_server_cert_path =>
  match cfg_getint config GRPC_CONNECTION_TIMEOUT with
  | Raise e => Raise e
  | Ok timeout =>
      Ok (mkChannel url enable_ssl enable_auth ssl_server_cert_path
            (_auth_metadata _feast) timeout)
  end end end end end.

(** The table reference of the first BigQuery source of a list, in the
    order of the list. *)
Fixpoint first_bigquery_table_ref (sources : list DataSource) : option string :=
  match sources with
  | [] => None
  | BigQuerySource _ _ table_ref :: _ => Some table_ref
  | FileSource _ _ _ _ :: rest => first_bigquery_table_ref rest
  end.

(** A retrieval call gets as far as staging: the tables resolve to
    [feature_tables], each batch source has a created-timestamp column, and
    the output location and format can be determined. *)
Definition reaches_staging (_feast : FeastClient) (feature_refs : list string)
    (output_location : option string) (feature_tables : list FeatureTable)
  : Prop :=
  _get_feature_tables_from_feature_refs (get_feature_table _feast)
    feature_refs (project _feast) = Ok feature_tables ∧
  forallb (λ ft, Py.truthy_opt (created_timestamp_column (ft_batch_source ft)))
          feature_tables = true ∧
  (output_location = None →
   ∃ base, cfg_get (_config _feast) HISTORICAL_FEATURE_OUTPUT_LOCATION = Ok base) ∧
  ∃ format, cfg_get (_config _feast) HISTORICAL_FEATURE_OUTPUT_FORMAT = Ok format.

(** Modelled from the spec: the launcher's [get_job_by_id] and the job
    service's [GetJob] are not among the sources.  Both look the id up in
    the jobs their backend knows, [jobs w] in the outside state [w], and
    fail with [NotFoundError] when it is not there. *)
Definition spec_launcher_get_job_by_id {B J : Type}
    (jobs : B → list (string * J)) (w : B) (call : launcher.Call)
  : result J * B :=
  match call with
  | launcher.get_job_by_id id => (backend_get_job (jobs w) id, w)
  | _ => (Raise (ValueError "get_job_by_id"), w)
  end.

Definition spec_GetJob {B : Type} (jobs : B → list (string * JobProto))
    (w : B) (request : Request) : result JobProto * B :=
  match request with
  | GetJobRequest id => (backend_get_job (jobs w) id, w)
  | _ => (Raise (ValueError "GetJob"), w)
  end.

(** ** Fixtures *)

Module Fixture.

Definition bookings_source : DataSource :=
  BigQuerySource "event_timestamp" (Some "created_timestamp")
    "gcp-project:warehouse.bookings".

Definition driver_source : DataSource :=
  FileSource "event_timestamp" (Some "created_timestamp") "parquet"
    "gs://bucket/driver".

Definition bookings : FeatureTable :=
  {| ft_name := "bookings"; ft_entities := ["driver_id"];
     ft_features := [mkFeature "bookings_7d" "INT64";
                     mkFeature "bookings_14d" "INT64";
                     mkFeature "bookings_30d" "INT64"];
     ft_batch_source := bookings_source |}.

Definition driver : FeatureTable :=
  {| ft_name := "driver"; ft_entities := ["driver_id"];
     ft_features := [mkFeature "conv_rate" "FLOAT";
                     mkFeature "acc_rate" "FLOAT"];
     ft_batch_source := driver_source |}.

(** A table whose batch source has no created-timestamp column. *)
Definition legacy : FeatureTable :=
  {| ft_name := "legacy"; ft_entities := ["driver_id"];
     ft_features := [mkFeature "clicks" "INT64"];
     ft_batch_source :=
       FileSource "event_timestamp" (Some "") "parquet" "gs://bucket/legacy" |}.

(** A registry holding the three tables, in every project. *)
Definition registry (name : string) (project : option string)
  : result FeatureTable :=
  if decide (name = "bookings") then Ok bookings
  else if decide (name = "driver") then Ok driver
  else if decide (name = "legacy") then Ok legacy
  else Raise (NotFoundError name).

(** An entity table in memory: rows of cells. *)
Definition Frame : Type := list (list string).

(** The outside state of the fixture: the jobs the backend knows. *)
Definition Jobs : Type := list (string * JobProto).

Definition settings (remote : bool) (o : opt) : option string :=
  match o with
  | JOB_SERVICE_URL => if remote then Some "jobservice:6568" else None
  | JOB_SERVICE_ENABLE_SSL => Some "False"
  | JOB_SERVICE_SERVER_SSL_CERT => Some ""
  | ENABLE_AUTH => Some "False"
  | GRPC_CONNECTION_TIMEOUT => Some "10"
  | SPARK_STAGING_LOCATION => Some "gs://staging"
  | HISTORICAL_FEATURE_OUTPUT_LOCATION => Some "gs://out"
  | HISTORICAL_FEATURE_OUTPUT_FORMAT => Some "parquet"
  end.

Definition get_setting (remote : bool) (o : opt) : result string :=
  match settings remote o with
  | Some v => Ok v
  | None => Raise (NoOptionError "option")
  end.

Definition the_config (remote : bool) : Config :=
  {| cfg_exists o := bool_decide (is_Some (settings remote o));
     cfg_get := get_setting remote;
     cfg_getboolean o :=
       match get_setting remote o with
       | Ok v => if decide (v = "True") then Ok true
                 else if decide (v = "False") then Ok false
                 else Raise (ValueError "Not a boolean")
       | Raise e => Raise e
       end;
     cfg_getint o :=
       match get_setting remote o with
       | Ok v => if decide (v = "10") then Ok 10%Z
                 else Raise (ValueError "invalid literal for int()")
       | Raise e => Raise e
       end |}.

Definition feast_client (remote : bool) : FeastClient :=
  {| project := Some "proj1";
     _config := the_config remote;
     _extra_grpc_params := [("timeout", "10")];
     _auth_metadata := None;
     get_feature_table := registry |}.

Fixpoint after_first (sep : ascii) (s : string) : string :=
  match s with
  | EmptyString => EmptyString
  | String c s' => if Ascii.eqb c sep then s' else after_first sep s'
  end.

(** ["project:dataset.table"] *)
Definition parse_table_ref (s : string) : result TableReference :=
  if contains ":" s && contains "." (after_first ":" s) then
    Ok {| tr_project := before_first ":" s;
          tr_dataset_id := before_first "." (after_first ":" s);
          tr_table_id := after_first "." (after_first ":" s) |}
  else Raise (ValueError "table_ref").

Definition new_job (jobs : Jobs) (type : JobType) (meta : string) : JobProto :=
  {| job_id := "job-" ++ Uuid.str (N.of_nat (List.length jobs));
     job_type := type; job_start_time := mkTimestamp 1600000000 0;
     job_meta := meta; job_log_uri := "gs://logs" |}.

Definition submit (jobs : Jobs) (type : JobType) (meta : string)
  : JobProto * Jobs :=
  let j := new_job jobs type meta in (j, jobs ++ [(job_id j, j)]).

Definition started (j : JobProto) : StartJobResponse :=
  {| sj_id := job_id j; sj_job_start_time := job_start_time j;
     sj_log_uri := job_log_uri j |}.

Definition collaborators
  : Collaborators (DataFrame:=Frame) (LocalJob:=JobProto) (B:=Jobs) :=
  {| uuid4 := N.of_nat;
     table_reference_from_string := parse_table_ref;
     stage_entities_to_bq w df p d :=
       (Ok (BigQuerySource "event_timestamp" None (p ++ ":" ++ d ++ ".entities")),
        w);
     stage_entities_to_fs w df location cfg :=
       (Ok (FileSource "event_timestamp" None "parquet"
              (os_path.join location "entities")), w);
     launcher_start w call :=
       match call with
       | launcher.start_historical_feature_retrieval_job _ _ _ _ out =>
           let '(j, w') := submit w RETRIEVAL_JOB out in (Ok j, w')
       | launcher.start_offline_to_online_ingestion _ ft _ _ =>
           let '(j, w') := submit w BATCH_INGESTION_JOB (ft_name ft) in
           (Ok j, w')
       | launcher.start_stream_to_online_ingestion _ ft _ =>
           let '(j, w') := submit w STREAM_INGESTION_JOB (ft_name ft) in
           (Ok j, w')
       | _ => (Raise (ValueError "launcher"), w)
       end;
     launcher_list_jobs w call := (Ok (map snd w), w);
     launcher_get_job_by_id := spec_launcher_get_job_by_id (λ w, w);
     svc_GetHistoricalFeatures w request :=
       match request with
       | GetHistoricalFeaturesRequest _ _ _ _ out =>
           let '(j, w') := submit w RETRIEVAL_JOB out in
           (Ok {| ghf_id := job_id j; ghf_output_file_uri := out;
                  ghf_job_start_time := job_start_time j;
                  ghf_log_uri := job_log_uri j |}, w')
       | _ => (Raise (RpcError "request"), w)
       end;
     svc_StartOfflineToOnlineIngestionJob w request :=
       match request with
       | StartOfflineToOnlineIngestionJobRequest _ table _ _ =>
           let '(j, w') := submit w BATCH_INGESTION_JOB table in
           (Ok (started j), w')
       | _ => (Raise (RpcError "request"), w)
       end;
     svc_StartStreamToOnlineIngestionJob w request :=
       match request with
       | StartStreamToOnlineIngestionJobRequest _ table =>
           let '(j, w') := submit w STREAM_INGESTION_JOB table in
           (Ok (started j), w')
       | _ => (Raise (RpcError "request"), w)
       end;
     svc_ListJobs w request := (Ok (map snd w), w);
     svc_GetJob := spec_GetJob (λ w, w) |}.

(** A new client, before any call; the backend knows one job. *)
Definition known_job : JobProto := new_job [] BATCH_INGESTION_JOB "driver".

Definition fresh : State (B:=Jobs) :=
  __init__ 0 0 [(job_id known_job, known_job)].

Definition channel : Channel :=
  {| ch_url := "jobservice:6568"; ch_enable_ssl := false;
     ch_enable_auth := false; ch_ssl_server_cert_path := "";
     ch_auth_metadata_plugin := None; ch_timeout := 10 |}.

Definition scattered_refs : list string :=
  ["bookings:bookings_7d"; "driver:conv_rate"; "bookings:bookings_14d"].

Definition mixed_refs : list string :=
  ["driver:conv_rate"; "bookings:bookings_7d"].

(** What [mixed_refs] resolves to. *)
Definition mixed_tables : list FeatureTable :=
  [set_features driver [mkFeature "conv_rate" "FLOAT"];
   set_features bookings [mkFeature "bookings_7d" "INT64"]].

Definition entities : Frame := [["driver_id"; "event_timestamp"]; ["1"; "0"]].

End Fixture.

(** ** The session variant of retrieval *)

Section Retrieval_df.
(** [SparkFrame]: the Spark dataframe the launcher gives back. *)
Context {B SparkFrame : Type}.

(** [feast_spark.pyspark.launcher.start_historical_feature_retrieval_spark_session],
    called with the project, the entity source and the feature tables. *)
Variable start_historical_feature_retrieval_spark_session :
  B → option string → DataSource → list FeatureTable → result SparkFrame * B.
Variable _feast : FeastClient.

(** [entity_source] is a [FileSource] or a [BigQuerySource]; the method
    reads neither the configuration nor the job-service stub. *)
Definition get_historical_features_df (feature_refs : list string)
    (entity_source : DataSource) (w : B) : result SparkFrame * B :=
  match _get_feature_tables_from_feature_refs (get_feature_table _feast)
          feature_refs (project _feast) with
  | Raise e => (Raise e, w)
  | Ok feature_tables =>
      start_historical_feature_retrieval_spark_session w (project _feast)
        entity_source feature_tables
  end.
End Retrieval_df.

(** ** Shapes shared by the remote branches *)

(** The state a collaborator leaves when it answers with the outside state
    [w]. *)
Definition with_world {B : Type} (s : State (B:=B)) (w : B) : State (B:=B) :=
  {| _job_service_stub := _job_service_stub s;
     _job_service_service_stub := _job_service_service_stub s;
     objects_created := objects_created s;
     uuids_drawn := uuids_drawn s;
     world := w |}.

(** The remote branch of [get_historical_features], of the two ingestion
    methods and of [get_job_by_id]: read the stub, call the job service,
    read the stub again and wrap the response. *)
Definition remote_call {DataFrame B R A : Type} (_feast : FeastClient)
    (method : string) (rpc : B → Request → result R * B) (request : Request)
    (kwargs : option GrpcParams) (wrap : option JobServiceStub → R → A)
  : M (DataFrame:=DataFrame) (B:=B) A :=
  service ← _job_service _feast;
  response ← call_service service method rpc request kwargs;
  service' ← _job_service _feast;
  mret (wrap service' response).

(** The handles [list_jobs] builds in remote mode when the objects made so
    far number [n]: the job at position [i] gets the stub made as object
    [n + i]. *)
Fixpoint handles_from {LocalJob : Type} (channel : Channel)
    (params : GrpcParams) (n : nat) (jobs : list JobProto)
  : list (SparkJob LocalJob) :=
  match jobs with
  | [] => []
  | job :: jobs' =>
      get_remote_job_from_proto
        (Some {| stub_id := n; stub_channel := channel |}) params job
      :: handles_from channel params (S n) jobs'
  end.

(** The state after [k] more stubs were built on [channel]. *)
Fixpoint with_new_stubs {B : Type} (k : nat) (s : State (B:=B))
    (channel : Channel) : State (B:=B) :=
  match k with
  | O => s
  | S k' => with_new_stubs k' (with_new_stub s channel) channel
  end.

(** ** Fixtures with failing collaborators *)

Module Failing.

(** The settings of [Fixture] with the options [missing] taken out. *)
Definition settings (remote : bool) (missing : list opt) (o : opt)
  : option string :=
  if existsb (λ m, match m, o with
                   | JOB_SERVICE_URL, JOB_SERVICE_URL
                   | JOB_SERVICE_ENABLE_SSL, JOB_SERVICE_ENABLE_SSL
                   | JOB_SERVICE_SERVER_SSL_CERT, JOB_SERVICE_SERVER_SSL_CERT
                   | ENABLE_AUTH, ENABLE_AUTH
                   | GRPC_CONNECTION_TIMEOUT, GRPC_CONNECTION_TIMEOUT
                   | SPARK_STAGING_LOCATION, SPARK_STAGING_LOCATION
                   | HISTORICAL_FEATURE_OUTPUT_LOCATION,
                     HISTORICAL_FEATURE_OUTPUT_LOCATION
                   | HISTORICAL_FEATURE_OUTPUT_FORMAT,
                     HISTORICAL_FEATURE_OUTPUT_FORMAT => true
                   | _, _ => false
                   end) missing
  then None else Fixture.settings remote o.

Definition get_setting (remote : bool) (missing : list opt) (o : opt)
  : result string :=
  match settings remote missing o with
  | Some v => Ok v
  | None => Raise (NoOptionError "option")
  end.

Definition the_config (remote : bool) (missing : list opt) : Config :=
  {| cfg_exists o := bool_decide (is_Some (settings remote missing o));
     cfg_get := get_setting remote missing;
     cfg_getboolean o :=
       match get_setting remote missing o with
       | Ok v => if decide (v = "True") then Ok true
                 else if decide (v = "False") then Ok false
                 else Raise (ValueError "Not a boolean")
       | Raise e => Raise e
       end;
     cfg_getint o :=
       match get_setting remote missing o with
       | Ok v => if decide (v = "10") then Ok 10%Z
                 else Raise (ValueError "invalid literal for int()")
       | Raise e => Raise e
       end |}.

Definition feast_client (remote : bool) (missing : list opt) : FeastClient :=
  {| project := Some "proj1";
     _config := the_config remote missing;
     _extra_grpc_params := [("timeout", "10")];
     _auth_metadata := None;
     get_feature_table := Fixture.registry |}.

(** Collaborators whose staging, launcher and job service all fail. *)
Definition collaborators
  : Collaborators (DataFrame:=Fixture.Frame) (LocalJob:=JobProto)
      (B:=Fixture.Jobs) :=
  {| uuid4 := N.of_nat;
     table_reference_from_string := Fixture.parse_table_ref;
     stage_entities_to_bq w df p d := (Raise (StagingError "bigquery"), w);
     stage_entities_to_fs w df location cfg :=
       (Raise (StagingError "file system"), w);
     launcher_start w call := (Raise (ValueError "launcher"), w);
     launcher_list_jobs w call := (Raise (ValueError "launcher"), w);
     launcher_get_job_by_id w call := (Raise (ValueError "launcher"), w);
     svc_GetHistoricalFeatures w request := (Raise (RpcError "unavailable"), w);
     svc_StartOfflineToOnlineIngestionJob w request :=
       (Raise (RpcError "unavailable"), w);
     svc_StartStreamToOnlineIngestionJob w request :=
       (Raise (RpcError "unavailable"), w);
     svc_ListJobs w request := (Raise (RpcError "unavailable"), w);
     svc_GetJob w request := (Raise (RpcError "unavailable"), w) |}.

(** A session launcher that answers with the names of the tables it got. *)
Definition spark_session (w : Fixture.Jobs) (project : option string)
    (entity_source : DataSource) (feature_tables : list FeatureTable)
  : result (list string) * Fixture.Jobs :=
  (Ok (map ft_name feature_tables), w).

End Failing.

(** ** The words of the specification, continued *)

(** The substring of [s] after the last [sep] (all of [s] when it has
    none): the feature name of a reference [table:feature]. *)
Fixpoint after_last (sep : ascii) (s : string) : string :=
  match s with
  | EmptyString => EmptyString
  | String c s' =>
      if contains sep s' then after_last sep s'
      else if Ascii.eqb c sep then s' else String c s'
  end.

(** [ft] is the registry's table [t] with its features filtered, in the
    registry's order, to the feature names the references [refs] request:
    the parts of the references after their last colon. *)
Definition pruned_to_requested (t : FeatureTable) (refs : list string)
    (ft : FeatureTable) : Prop :=
  ft_name ft = ft_name t ∧ ft_entities ft = ft_entities t ∧
  ft_batch_source ft = ft_batch_source t ∧
  ft_features ft =
    filter (λ f, feature_name f ∈ map (after_last ":") refs) (ft_features t).

(** The outcome [o] shows the call [call] of the launcher. *)
Definition launched {DataFrame B A : Type} (call : launcher.Call)
    (o : result A * list (Event DataFrame) * State (B:=B)) : Prop :=
  Exists (λ e, e = Launch call) (trace o).

(** The outcome [o] shows the request [request], sent to the job service
    with the keyword arguments [kwargs]. *)
Definition requested {DataFrame B A : Type} (request : Request)
    (kwargs : option GrpcParams)
    (o : result A * list (Event DataFrame) * State (B:=B)) : Prop :=
  Exists (λ e, ∃ stub, e = Rpc stub request kwargs) (trace o).

(** * Properties *)

Local Open Scope nat_scope.

(** ** Splitting and grouping *)

Example split_examples :
  Py.split ":" "bookings:bookings_7d" = ["bookings"; "bookings_7d"] ∧
  Py.split ":" "a:b:c" = ["a"; "b"; "c"] ∧
  Py.split ":" "a:" = ["a"; ""] ∧
  Py.split ":" "" = [""] ∧
  table_of_ref "a:b:c" = "a" ∧ feature_of_ref "a:b:c" = "c" ∧
  table_of_ref "plain" = "plain" ∧ feature_of_ref "plain" = "plain".
Proof. repeat split. Qed.

Example groupby_example :
  Py.groupby table_of_ref ["a:x"; "a:y"; "b:z"; "a:w"]
  = [("a", ["a:x"; "a:y"]); ("b", ["b:z"]); ("a", ["a:w"])].
Proof. reflexivity. Qed.

Lemma split_not_nil sep s : Py.split sep s ≠ [].
Proof.
  destruct s as [|c s]; simpl; [done|].
  destruct (Ascii.eqb c sep); [done|]. by destruct (Py.split sep s).
Qed.

Lemma first_split sep s : Py.first (Py.split sep s) = before_first sep s.
Proof.
  induction s as [|c s IH]; simpl; [done|].
  destruct (Ascii.eqb c sep); [done|].
  destruct (Py.split sep s) as [|w ws] eqn:E.
  - by destruct (split_not_nil sep s).
  - simpl in *. by rewrite IH.
Qed.

Lemma table_of_ref_before_first x : table_of_ref x = before_first ":" x.
Proof. apply first_split. Qed.

Lemma split_no_sep sep s : contains sep s = false → Py.split sep s = [s].
Proof.
  induction s as [|c s IH]; simpl; [done|].
  destruct (Ascii.eqb c sep); simpl; [done|].
  intros H. by rewrite IH.
Qed.

Lemma final_cons w ws : ws ≠ [] → Py.final (w :: ws) = Py.final ws.
Proof. unfold Py.final. by destruct ws. Qed.

Lemma final_split_app sep t f :
  contains sep f = false →
  Py.final (Py.split sep (t ++ String sep f)) = f.
Proof.
  intros Hf. induction t as [|c t IH]; simpl.
  - rewrite Ascii.eqb_refl, final_cons by apply split_not_nil.
    by rewrite split_no_sep.
  - destruct (Ascii.eqb c sep).
    + by rewrite final_cons by apply split_not_nil.
    + assert (Hlen : ∃ w v vs, Py.split sep (t ++ String sep f) = w :: v :: vs).
      { clear IH. induction t as [|d t IHt]; simpl.
        - rewrite Ascii.eqb_refl.
          destruct (Py.split sep f) eqn:E; [by destruct (split_not_nil sep f)|].
          eauto.
        - destruct IHt as (w & v & vs & ->).
          destruct (Ascii.eqb d sep); eauto. }
      destruct Hlen as (w & v & vs & E). rewrite E in *.
      by rewrite final_cons in * by done.
Qed.

Lemma feature_of_ref_app t f :
  contains ":" f = false → feature_of_ref (t ++ ":" ++ f) = f.
Proof. apply final_split_app. Qed.

Lemma before_first_app sep t r :
  contains sep t = false → before_first sep (t ++ String sep r) = t.
Proof.
  induction t as [|c t IH]; simpl.
  - by rewrite Ascii.eqb_refl.
  - destruct (Ascii.eqb c sep); simpl; [done|]. intros H. by rewrite IH.
Qed.

Lemma rev_not_nil {A} (g : list A) : g ≠ [] → rev g ≠ [].
Proof. intros Hg E. apply Hg. by rewrite <- (rev_involutive g), E. Qed.

Lemma groupby_from_runs {A K} `{EqDecision K} (key : A → K) l :
  ∀ k g, g ≠ [] → Forall (λ x, key x = k) g →
  ∃ g' rest, Py.groupby_from key k g l = (k, g') :: rest ∧
    contiguous_runs key (rev g ++ l) ((k, g') :: rest).
Proof.
  induction l as [|x l IH]; intros k g Hg Hk; simpl.
  - exists (rev g), []. split; [done|]. split; [|split]; simpl.
    + done.
    + constructor; [|done]. split; simpl.
      * by apply rev_not_nil.
      * by apply Forall_rev.
    + done.
  - destruct (decide (key x = k)) as [Hx|Hx].
    + destruct (IH k (x :: g)) as (g' & rest & E & Hruns); [done|by constructor|].
      exists g', rest. split; [done|].
      simpl in Hruns. by rewrite <- app_assoc in Hruns.
    + destruct (IH (key x) [x]) as (g' & rest & E & Hc & Hf & Ha);
        [done|by constructor|].
      exists (rev g), ((key x, g') :: rest). rewrite E. split; [done|].
      split; [|split]; simpl.
      * simpl in Hc. by rewrite Hc.
      * constructor; [|done]. split; simpl.
        -- by apply rev_not_nil.
        -- by apply Forall_rev.
      * split; [by apply not_eq_sym|done].
Qed.

Lemma groupby_runs {A K} `{EqDecision K} (key : A → K) l :
  contiguous_runs key l (Py.groupby key l).
Proof.
  destruct l as [|x l]; simpl.
  - repeat split; simpl; done.
  - destruct (groupby_from_runs key l (key x) [x]) as (g' & rest & -> & H);
      [done|by constructor|]. done.
Qed.

(** ** Feature-table resolution *)

Lemma resolve_group_ok reg project g ft :
  resolve_group reg project g = Ok ft →
  ∃ t, reg g.1 project = Ok t ∧ pruned_to t g.2 ft.
Proof.
  destruct g as [k refs]; simpl.
  destruct (reg k project) as [t|e]; [|done].
  intros [= <-]. exists t. by repeat split.
Qed.

Lemma resolve_group_raise reg project g e :
  resolve_group reg project g = Raise e → reg g.1 project = Raise e.
Proof.
  destruct g as [k refs]; simpl. by destruct (reg k project).
Qed.

Lemma resolve_groups_ok reg project gs :
  ∀ acc fts, resolve_groups reg project gs acc = Ok fts →
  ∃ new, fts = acc ++ new ∧
         Forall2 (λ g ft, resolve_group reg project g = Ok ft) gs new.
Proof.
  induction gs as [|g gs IH]; intros acc fts; simpl.
  - intros [= <-]. exists []. by rewrite app_nil_r.
  - destruct (resolve_group reg project g) as [ft|e] eqn:E; [|done].
    intros H. destruct (IH _ _ H) as (new & -> & HF).
    exists (ft :: new). rewrite <- app_assoc. split; [done|]. by constructor.
Qed.

Lemma resolve_groups_raise reg project gs :
  ∀ acc e, resolve_groups reg project gs acc = Raise e →
  ∃ g, g ∈ gs ∧ resolve_group reg project g = Raise e.
Proof.
  induction gs as [|g gs IH]; intros acc e; simpl; [done|].
  destruct (resolve_group reg project g) as [ft|e'] eqn:E.
  - intros H. destruct (IH _ _ H) as (g' & Hin & Hg').
    exists g'. split; [by right|done].
  - intros [= <-]. exists g. split; [by left|done].
Qed.

Lemma resolve_groups_total reg project gs :
  ∀ acc, Forall (λ g, ∃ t, reg g.1 project = Ok t) gs →
  ∃ fts, resolve_groups reg project gs acc = Ok fts.
Proof.
  induction gs as [|[k refs] gs IH]; intros acc HF; simpl; [by eexists|].
  inversion HF as [|? ? [t Ht] HF']; subst. simpl in Ht. rewrite Ht.
  apply IH, HF'.
Qed.

(** The scenario of the specification. *)
Example resolve_scenario :
  _get_feature_tables_from_feature_refs Fixture.registry
    ["bookings:bookings_7d"; "bookings:bookings_14d"; "driver:conv_rate"]
    (Some "proj1")
  = Ok [set_features Fixture.bookings
          [mkFeature "bookings_7d" "INT64"; mkFeature "bookings_14d" "INT64"];
        set_features Fixture.driver [mkFeature "conv_rate" "FLOAT"]].
Proof. vm_compute. reflexivity. Qed.

(** What the resolver does for every input; the two theorems below are
    read off it. *)
Lemma resolver_runs_pruned
    (reg : string → option string → result FeatureTable)
    (feature_refs : list string) (project : option string) :
  contiguous_runs table_of_ref feature_refs
    (Py.groupby table_of_ref feature_refs) ∧
  match _get_feature_tables_from_feature_refs reg feature_refs project with
  | Ok feature_tables =>
      Forall2 (λ run ft, ∃ t, reg run.1 project = Ok t ∧ pruned_to t run.2 ft)
              (Py.groupby table_of_ref feature_refs) feature_tables
  | Raise e =>
      ∃ run, run ∈ Py.groupby table_of_ref feature_refs ∧
             reg run.1 project = Raise e
  end.
Proof.
  split; [apply groupby_runs|].
  unfold _get_feature_tables_from_feature_refs.
  destruct (resolve_groups reg project _ []) as [fts|e] eqn:E.
  - destruct (resolve_groups_ok _ _ _ _ _ E) as (new & -> & HF). simpl.
    eapply Forall2_impl; [exact HF|]. intros g ft. apply resolve_group_ok.
  - destruct (resolve_groups_raise _ _ _ _ _ E) as (g & Hin & Hg).
    exists g. split; [done|]. by apply resolve_group_raise.
Qed.

Lemma split_contains sep s :
  contains sep s = true → ∃ w v vs, Py.split sep s = w :: v :: vs.
Proof.
  induction s as [|c s IH]; simpl; [done|].
  destruct (Ascii.eqb c sep); simpl.
  - intros _. destruct (Py.split sep s) as [|v vs] eqn:E;
      [by destruct (split_not_nil sep s)|]. eauto.
  - intros H. destruct (IH H) as (w & v & vs & ->). eauto.
Qed.

Lemma after_last_no_sep sep s : contains sep s = false → after_last sep s = s.
Proof.
  destruct s as [|c s]; simpl; [done|].
  destruct (Ascii.eqb c sep); simpl; [done|]. by intros ->.
Qed.

(** The last piece of a split is what stands after the last separator. *)
Lemma final_split sep s : Py.final (Py.split sep s) = after_last sep s.
Proof.
  induction s as [|c s IH]; simpl; [done|].
  destruct (Ascii.eqb c sep) eqn:Ec.
  - rewrite final_cons by apply split_not_nil. rewrite IH.
    destruct (contains sep s) eqn:Hc; [done|]. by apply after_last_no_sep.
  - destruct (contains sep s) eqn:Hc.
    + destruct (split_contains sep s Hc) as (w & v & vs & E).
      rewrite E in *. by rewrite final_cons in * by done.
    + by rewrite (split_no_sep sep s Hc).
Qed.

Lemma feature_of_ref_after_last x : feature_of_ref x = after_last ":" x.
Proof. apply final_split. Qed.

Lemma contiguous_runs_ext {A K} (key key' : A → K) l gs :
  (∀ x, key x = key' x) → contiguous_runs key l gs → contiguous_runs key' l gs.
Proof.
  intros Hk (Hcat & Hhom & Hadj). split_and!; [done| |done].
  eapply Forall_impl; [exact Hhom|]. intros g [Hne Hg]. split; [done|].
  eapply Forall_impl; [exact Hg|]. intros x Hx. by rewrite <- Hk.
Qed.

(** C1. For every list of feature references, every registry and project.
    The resolver reads a reference the way the specification does: its
    table name is the substring before the first colon, its feature name
    the substring after the last one.  [groupby] cuts the list into its
    contiguous runs of equal table name.  When the resolver returns, it
    returns one definition per run, in the order of the runs, each being
    the registry's table of that run's name with its features filtered, in
    registry order, to the feature names the references of the run request.
    The resolver fails only with the error of a registry lookup of one of
    the runs. *)
Theorem resolver_one_definition_per_run
    (reg : string → option string → result FeatureTable)
    (feature_refs : list string) (project : option string) :
  let runs := Py.groupby table_of_ref feature_refs in
  (∀ x, table_of_ref x = before_first ":" x) ∧
  (∀ x, feature_of_ref x = after_last ":" x) ∧
  contiguous_runs (before_first ":") feature_refs runs ∧
  match _get_feature_tables_from_feature_refs reg feature_refs project with
  | Ok feature_tables =>
      Forall2 (λ run ft, ∃ t, reg run.1 project = Ok t ∧
                              pruned_to_requested t run.2 ft)
              runs feature_tables
  | Raise e => ∃ run, run ∈ runs ∧ reg run.1 project = Raise e
  end.
Proof.
  intros runs. split; [apply table_of_ref_before_first|].
  split; [apply feature_of_ref_after_last|].
  destruct (resolver_runs_pruned reg feature_refs project) as [Hruns HF].
  split.
  - eapply contiguous_runs_ext; [apply table_of_ref_before_first|exact Hruns].
  - destruct (_get_feature_tables_from_feature_refs reg feature_refs project)
      as [fts|e]; [|exact HF].
    eapply Forall2_impl; [exact HF|].
    intros run ft (t & Ht & Hn & He & Hb & Hf). exists t. split; [done|].
    split_and!; [done..|]. rewrite Hf.
    by rewrite (map_ext _ _ feature_of_ref_after_last).
Qed.

(** ** Positions in a list cut into runs *)

Lemma concat_lookup_inv {A} (ls : list (list A)) :
  ∀ (n : nat) (x : A), List.concat ls !! n = Some x →
  ∃ (p : nat) (l : list A) (o : nat), ls !! p = Some l ∧ l !! o = Some x ∧
           n = List.length (List.concat (take p ls)) + o.
Proof.
  induction ls as [|l ls IH]; intros n x; simpl; [done|].
  intros H. apply lookup_app_Some in H as [H|[Hle H]].
  - exists 0, l, n. by repeat split.
  - destruct (IH _ _ H) as (p & l' & o & Hp & Ho & Hn).
    exists (S p), l', o. repeat split; [done..|].
    simpl. rewrite length_app. lia.
Qed.

Lemma concat_take_S {A} (ls : list (list A)) (p : nat) (l : list A) :
  ls !! p = Some l →
  List.length (List.concat (take (S p) ls)) =
  List.length (List.concat (take p ls)) + List.length l.
Proof.
  intros H. rewrite (take_S_r _ _ _ H), concat_app, length_app. simpl.
  by rewrite app_nil_r.
Qed.

Lemma concat_take_le {A} (ls : list (list A)) (p q : nat) :
  p ≤ q →
  List.length (List.concat (take p ls)) ≤ List.length (List.concat (take q ls)).
Proof.
  intros Hpq. replace q with (p + (q - p)) by lia.
  rewrite <- take_take_drop, concat_app, length_app. lia.
Qed.

(** Of two positions of the whole list, the later one lies in the same run
    or in a later run. *)
Lemma concat_position_mono {A} (ls : list (list A))
    (p p' o o' : nat) (l l' : list A) (x x' : A) :
  ls !! p = Some l → l !! o = Some x →
  ls !! p' = Some l' → l' !! o' = Some x' →
  List.length (List.concat (take p ls)) + o <
    List.length (List.concat (take p' ls)) + o' →
  p ≤ p'.
Proof.
  intros Hp Ho Hp' Ho' Hlt.
  destruct (decide (p ≤ p')) as [|Hn]; [done|exfalso].
  assert (Hle := concat_take_le ls (S p') p ltac:(lia)).
  rewrite (concat_take_S _ _ _ Hp') in Hle.
  apply lookup_lt_Some in Ho'. lia.
Qed.

(** C6. When two references to one table stand at positions [i < j] with a
    reference to another table at a position [k] between them, and the
    resolver returns, the result holds two definitions of that table, at
    two different positions [p < q]: each is the registry's table pruned to
    the features of its own run, the run of the first reference and the run
    of the second one.  Nothing merges the two. *)
Theorem nonadjacent_references_resolved_separately
    (reg : string → option string → result FeatureTable)
    (feature_refs : list string) (project : option string)
    (i k j : nat) (a c b : string) (feature_tables : list FeatureTable) :
  i < k → k < j →
  feature_refs !! i = Some a → feature_refs !! k = Some c →
  feature_refs !! j = Some b →
  table_of_ref a = table_of_ref b → table_of_ref c ≠ table_of_ref a →
  _get_feature_tables_from_feature_refs reg feature_refs project
    = Ok feature_tables →
  ∃ (p q : nat) (run_a run_b : list string) (t fa fb : FeatureTable),
    p < q ∧
    Py.groupby table_of_ref feature_refs !! p = Some (table_of_ref a, run_a) ∧
    Py.groupby table_of_ref feature_refs !! q = Some (table_of_ref a, run_b) ∧
    a ∈ run_a ∧ b ∈ run_b ∧
    reg (table_of_ref a) project = Ok t ∧
    feature_tables !! p = Some fa ∧ pruned_to t run_a fa ∧
    feature_tables !! q = Some fb ∧ pruned_to t run_b fb.
Proof.
  intros Hik Hkj Ha Hc Hb Hab Hca Hres.
  destruct (resolver_runs_pruned reg feature_refs project) as [Hruns HF].
  rewrite Hres in HF.
  set (runs := Py.groupby table_of_ref feature_refs) in *.
  destruct Hruns as (Hcat & Hhom & _).
  assert (Hloc : ∀ (n : nat) (x : string), feature_refs !! n = Some x →
            ∃ (p o : nat) (run : list string),
              runs !! p = Some (table_of_ref x, run) ∧ run !! o = Some x ∧
              n = List.length (List.concat (take p (map snd runs))) + o).
  { intros n x Hx. rewrite <- Hcat in Hx.
    destruct (concat_lookup_inv _ _ _ Hx) as (p & l & o & Hp & Ho & Hn).
    rewrite list_lookup_fmap in Hp.
    destruct (runs !! p) as [[key run]|] eqn:Er; [|done].
    simpl in Hp. injection Hp as ->.
    exists p, o, l. repeat split; [|done..].
    rewrite Forall_lookup in Hhom. destruct (Hhom _ _ Er) as [_ Hk].
    simpl in Hk. rewrite Forall_lookup in Hk. by rewrite (Hk _ _ Ho). }
  destruct (Hloc _ _ Ha) as (p & oa & run_a & Hp & Hoa & Hi).
  destruct (Hloc _ _ Hc) as (r & oc & run_c & Hr & Hoc & Hk).
  destruct (Hloc _ _ Hb) as (q & ob & run_b & Hq & Hob & Hj).
  assert (Hsnd : ∀ (n : nat) key (run : list string),
            runs !! n = Some (key, run) → map snd runs !! n = Some run).
  { intros n key run Hn. by rewrite list_lookup_fmap, Hn. }
  assert (Hpr : p ≤ r).
  { eapply (concat_position_mono (map snd runs)); eauto. lia. }
  assert (Hrq : r ≤ q).
  { eapply (concat_position_mono (map snd runs)); eauto. lia. }
  assert (p ≠ r) by (intros ->; rewrite Hp in Hr; congruence).
  assert (r ≠ q) by (intros ->; rewrite Hq in Hr; congruence).
  rewrite <- Hab in Hq.
  destruct (Forall2_lookup_l _ _ _ _ _ HF Hp) as (fa & Hfa & ta & Hta & Hpa).
  destruct (Forall2_lookup_l _ _ _ _ _ HF Hq) as (fb & Hfb & tb & Htb & Hpb).
  simpl in *. rewrite Hta in Htb. injection Htb as <-.
  exists p, q, run_a, run_b, ta, fa, fb.
  split_and!; try done; try lia.
  - by eapply list_elem_of_lookup_2.
  - by eapply list_elem_of_lookup_2.
Qed.

(** ** The monad *)

(** Unfolds the three projections of an outcome. *)
Ltac outcome := unfold value, trace, final in *; simpl in *.

(** Runs the primitives of the monad. *)
Ltac run :=
  unfold mbind, M_bind, mret, M_ret, lift, emit, extern, raise in *;
  simpl in *.

Section Monad_facts.
Context {DataFrame B : Type}.
Implicit Types s : State (B:=B).
Local Abbreviation Comp := (M (DataFrame:=DataFrame) (B:=B)).

Lemma bind_run {A C} (m : Comp A)
    (f : A → Comp C) s :
  (m ≫= f) s =
  match m s with
  | (Ok a, t, s1) => let '(r, t', s2) := f a s1 in (r, t ++ t', s2)
  | (Raise e, t, s1) => (Raise e, t, s1)
  end.
Proof. reflexivity. Qed.

(** A bind that returns went through both of its parts. *)
Lemma bind_ok_inv {A C} (m : Comp A)
    (f : A → Comp C) s c :
  value ((m ≫= f) s) = Ok c →
  ∃ a, value (m s) = Ok a ∧ value (f a (final (m s))) = Ok c ∧
       trace ((m ≫= f) s) = trace (m s) ++ trace (f a (final (m s))).
Proof.
  rewrite bind_run. destruct (m s) as [[[a|e] t] s1]; outcome; [|done].
  destruct (f a s1) as [[r t'] s2] eqn:E; outcome. intros ->.
  exists a. by rewrite E.
Qed.

Lemma trace_bind {A C} (m : Comp A)
    (f : A → Comp C) s :
  trace ((m ≫= f) s) =
  trace (m s) ++
  match value (m s) with
  | Ok a => trace (f a (final (m s)))
  | Raise _ => []
  end.
Proof.
  rewrite bind_run. destruct (m s) as [[[a|e] t] s1]; outcome.
  - by destruct (f a s1) as [[r t'] s2].
  - by rewrite app_nil_r.
Qed.

Lemma final_bind {A C} (m : Comp A)
    (f : A → Comp C) s :
  final ((m ≫= f) s) =
  match value (m s) with
  | Ok a => final (f a (final (m s)))
  | Raise _ => final (m s)
  end.
Proof.
  rewrite bind_run. destruct (m s) as [[[a|e] t] s1]; outcome; [|done].
  by destruct (f a s1) as [[r t'] s2].
Qed.

Lemma value_bind {A C} (m : Comp A)
    (f : A → Comp C) s :
  value ((m ≫= f) s) =
  match value (m s) with
  | Ok a => value (f a (final (m s)))
  | Raise e => Raise e
  end.
Proof.
  rewrite bind_run. destruct (m s) as [[[a|e] t] s1]; outcome; [|done].
  by destruct (f a s1) as [[r t'] s2].
Qed.

Lemma bind_ret {A C} (a : A) (f : A → Comp C) s : (mret a ≫= f) s = f a s.
Proof. rewrite bind_run. simpl. by destruct (f a s) as [[r t] s2]. Qed.

(** A first part that returns without an event. *)
Lemma bind_silent {A C} (m : Comp A) (f : A → Comp C) s a s1 :
  m s = (Ok a, [], s1) → (m ≫= f) s = f a s1.
Proof.
  intros H. rewrite bind_run, H. simpl. by destruct (f a s1) as [[r t] s2].
Qed.

Lemma bind_lift_ok {A C} (a : A) (f : A → Comp C) s :
  (lift (Ok a) ≫= f) s = f a s.
Proof. apply bind_ret. Qed.

Lemma bind_lift_raise {A C} e (f : A → Comp C) s :
  (lift (Raise e) ≫= f) s = (Raise e, [], s).
Proof. reflexivity. Qed.

Lemma bind_assert_true {C} msg (f : unit → Comp C) s :
  (assert_ true msg ≫= f) s = f () s.
Proof. apply bind_ret. Qed.

Section Only.
Variable P : Event DataFrame → Prop.

Lemma only_ret {A} (a : A) : only P (mret a : Comp A).
Proof. intros s. constructor. Qed.

Lemma only_raise {A} e : only P (raise e : Comp A).
Proof. intros s. constructor. Qed.

Lemma only_lift {A} (r : result A) : only P (lift r : Comp A).
Proof. intros s. constructor. Qed.

Lemma only_extern {A} (f : B → result A * B) : only P (extern f : Comp A).
Proof. intros s. unfold extern, trace. destruct (f (world s)). constructor. Qed.

Lemma only_emit e : P e → only P (emit e : Comp unit).
Proof. intros H s. by repeat constructor. Qed.

Lemma only_assert cond msg : only P (assert_ cond msg : Comp unit).
Proof. destruct cond; [apply only_ret|apply only_raise]. Qed.

Lemma only_bind {A C} (m : Comp A) (f : A → Comp C) :
  only P m → (∀ a, only P (f a)) → only P (m ≫= f).
Proof.
  intros Hm Hf s. rewrite trace_bind. apply Forall_app. split; [apply Hm|].
  destruct (value (m s)); [apply Hf|constructor].
Qed.
End Only.

Section Keeps.
Context {X : Type} (part : State (B:=B) → X).

Lemma keeps_ret {A} (a : A) : keeps part (mret a : Comp A).
Proof. by intros s. Qed.

Lemma keeps_raise {A} e : keeps part (raise e : Comp A).
Proof. by intros s. Qed.

Lemma keeps_lift {A} (r : result A) : keeps part (lift r : Comp A).
Proof. by intros s. Qed.

Lemma keeps_emit e : keeps part (emit e : Comp unit).
Proof. by intros s. Qed.

Lemma keeps_assert cond msg : keeps part (assert_ cond msg : Comp unit).
Proof. destruct cond; [apply keeps_ret|apply keeps_raise]. Qed.

Lemma keeps_extern {A} (f : B → result A * B) :
  ignores_rest part → keeps part (extern f : Comp A).
Proof.
  intros Hp s. unfold extern, final. destruct (f (world s)). simpl.
  apply Hp.
Qed.

Lemma keeps_bind {A C} (m : Comp A) (f : A → Comp C) :
  keeps part m → (∀ a, keeps part (f a)) → keeps part (m ≫= f).
Proof.
  intros Hm Hf s. rewrite final_bind.
  destruct (value (m s)); [by rewrite Hf|apply Hm].
Qed.
End Keeps.

Lemma emits_bind_l {A C} (P : Event DataFrame → Prop) (m : Comp A)
    (f : A → Comp C) :
  emits P m → emits P (m ≫= f).
Proof.
  intros Hm s c Hc. destruct (bind_ok_inv _ _ _ _ Hc) as (a & Ha & _ & ->).
  apply Exists_app. left. by eapply Hm.
Qed.

Lemma emits_bind_r {A C} (P : Event DataFrame → Prop) (m : Comp A)
    (f : A → Comp C) :
  (∀ a, emits P (f a)) → emits P (m ≫= f).
Proof.
  intros Hf s c Hc. destruct (bind_ok_inv _ _ _ _ Hc) as (a & Ha & Hfa & ->).
  apply Exists_app. right. by eapply Hf.
Qed.

Lemma emits_raise {A} (P : Event DataFrame → Prop) e : emits P (raise e : Comp A).
Proof. intros s a. done. Qed.

Lemma emits_emit (P : Event DataFrame → Prop) (e : Event DataFrame) :
  P e → emits P (emit e : Comp unit).
Proof. intros H s a _. by repeat constructor. Qed.
End Monad_facts.

(** Footprint of a computation built from the client's primitives: walks
    down the binds and the case distinctions. *)
Ltac footprint :=
  repeat first
    [ apply only_ret | apply only_raise | apply only_lift | apply only_extern
    | apply only_assert
    | apply only_emit; done
    | apply only_bind; [|intros ?]
    | match goal with
      | |- only _ (match ?x with _ => _ end) => destruct x
      end ].

(** ** The job-service property *)

Section Client_facts.
Context {DataFrame LocalJob B : Type}.
Variable env : Collaborators (DataFrame:=DataFrame) (LocalJob:=LocalJob) (B:=B).
Variable feast : FeastClient.
Implicit Types s : State (B:=B).
Local Abbreviation Comp := (M (DataFrame:=DataFrame) (B:=B)).

(** What one access of [_job_service] does while [_job_service_stub]
    holds [None]. *)
Lemma job_service_run s :
  _job_service_stub s = None →
  (_job_service feast : Comp _) s =
  if negb (_use_job_service feast) then (Ok None, [], s)
  else match configured_channel feast with
       | Ok channel =>
           (Ok (Some {| stub_id := objects_created s;
                        stub_channel := channel |}),
            [CreateChannel channel], with_new_stub s channel)
       | Raise e => (Raise e, [], s)
       end.
Proof.
  intros Hs. unfold _job_service, configured_channel.
  destruct (_use_job_service feast); simpl; [|done].
  unfold mbind, M_bind, get__job_service_stub. rewrite Hs. simpl.
  unfold config, lift.
  destruct (cfg_get (_config feast) JOB_SERVICE_URL); [|done].
  destruct (cfg_getboolean (_config feast) JOB_SERVICE_ENABLE_SSL); [|done].
  destruct (cfg_getboolean (_config feast) ENABLE_AUTH); [|done].
  destruct (cfg_get (_config feast) JOB_SERVICE_SERVER_SSL_CERT); [|done].
  destruct (cfg_getint (_config feast) GRPC_CONNECTION_TIMEOUT); [|done].
  reflexivity.
Qed.

Lemma only_job_service (P : Event DataFrame → Prop) :
  (∀ channel, P (CreateChannel channel)) →
  only P (_job_service feast : Comp _).
Proof.
  intros HP. unfold _job_service.
  destruct (_use_job_service feast); simpl; [|apply only_ret].
  apply only_bind; [by intros s; constructor|intros stub].
  apply only_bind.
  - destruct (negb _); [|apply only_ret].
    repeat (apply only_bind; [apply only_lift|intros ?]).
    apply only_bind.
    + apply only_bind; [by apply only_emit|intros ?; apply only_ret].
    + intros ch. apply only_bind; [by intros s; constructor|].
      intros st s. constructor.
  - intros _. apply only_bind; [|intros ?; apply only_ret].
    intros s. unfold get__job_service_service_stub.
    destruct (_job_service_service_stub s); constructor.
Qed.

Lemma only_call_service {R} (P : Event DataFrame → Prop) service method
    (rpc : B → Request → result R * B) request kwargs :
  (∀ stub, P (Rpc stub request kwargs)) →
  only P (call_service service method rpc request kwargs : Comp R).
Proof.
  intros HP. destruct service as [stub|]; simpl; [|apply only_raise].
  apply only_bind; [by apply only_emit|intros _; apply only_extern].
Qed.

Lemma emits_call_service {R} (P : Event DataFrame → Prop) service method
    (rpc : B → Request → result R * B) request kwargs :
  (∀ stub, P (Rpc stub request kwargs)) →
  emits P (call_service service method rpc request kwargs : Comp R).
Proof.
  intros HP. destruct service as [stub|]; simpl; [|apply emits_raise].
  apply emits_bind_l. by apply emits_emit.
Qed.

Lemma only_call_launcher {R} (P : Event DataFrame → Prop)
    (f : B → launcher.Call → result R * B) call :
  P (Launch call) → only P (call_launcher f call : Comp R).
Proof.
  intros HP. apply only_bind; [by apply only_emit|intros _; apply only_extern].
Qed.

Lemma emits_call_launcher {R} (P : Event DataFrame → Prop)
    (f : B → launcher.Call → result R * B) call :
  P (Launch call) → emits P (call_launcher f call : Comp R).
Proof. intros HP. apply emits_bind_l. by apply emits_emit. Qed.

(** ** Footprints of the methods *)

Lemma only_draw_uuid (P : Event DataFrame → Prop) :
  only P (draw_uuid env : Comp N).
Proof. intros s. constructor. Qed.

Lemma only_compute_output_location (P : Event DataFrame → Prop) out :
  only P (compute_output_location env feast out : Comp string).
Proof.
  unfold compute_output_location. footprint. apply only_draw_uuid.
Qed.

Lemma only_stage_entity_source (P : Event DataFrame → Prop) es sources :
  (∀ df p d, P (StageToBigQuery df p d)) →
  (∀ df l, P (StageToFileSystem df l)) →
  only P (stage_entity_source env feast es sources : Comp DataSource).
Proof. intros H1 H2. unfold stage_entity_source. footprint. Qed.

Lemma only_remote_jobs_from_protos (P : Event DataFrame → Prop) jobs :
  (∀ channel, P (CreateChannel channel)) →
  only P (remote_jobs_from_protos (LocalJob:=LocalJob) feast jobs : Comp _).
Proof.
  intros HP. induction jobs as [|job jobs IH]; simpl; [apply only_ret|].
  apply only_bind; [by apply only_job_service|intros service].
  apply only_bind; [exact IH|intros hs; apply only_ret].
Qed.

Lemma only_dispatch_retrieval (P : Event DataFrame → Prop)
    feature_refs fts es fmt out :
  (∀ channel, _use_job_service feast = true → P (CreateChannel channel)) →
  (∀ stub, _use_job_service feast = true →
     P (Rpc stub (GetHistoricalFeaturesRequest feature_refs es
                    (project feast) fmt out)
          (Some (_extra_grpc_params feast)))) →
  (_use_job_service feast = false →
     P (Launch (launcher.start_historical_feature_retrieval_job
                  (project feast) es fts fmt out))) →
  only P (dispatch_retrieval env feast feature_refs fts es fmt out : Comp _).
Proof.
  intros Hch Hrpc Hlaunch. unfold dispatch_retrieval.
  destruct (_use_job_service feast).
  - apply only_bind; [apply only_job_service; auto|intros service].
    apply only_bind; [apply only_call_service; auto|intros response].
    apply only_bind; [apply only_job_service; auto|intros service'].
    apply only_ret.
  - apply only_bind; [apply only_call_launcher; auto|intros job].
    apply only_ret.
Qed.

Lemma only_get_historical_features (P : Event DataFrame → Prop)
    feature_refs es out :
  (∀ sources, only P (stage_entity_source env feast es sources
                      : Comp DataSource)) →
  (∀ channel, _use_job_service feast = true → P (CreateChannel channel)) →
  (∀ stub r k, _use_job_service feast = true → P (Rpc stub r k)) →
  (∀ call, _use_job_service feast = false → P (Launch call)) →
  only P (get_historical_features env feast feature_refs es out : Comp _).
Proof.
  intros Hstage Hch Hrpc Hlaunch. unfold get_historical_features.
  apply only_bind; [apply only_lift|intros fts].
  apply only_bind; [apply only_assert|intros _].
  apply only_bind; [apply only_compute_output_location|intros out'].
  apply only_bind; [apply only_lift|intros fmt]. simpl.
  apply only_bind; [apply Hstage|intros es'].
  apply only_dispatch_retrieval; auto.
Qed.

(** A computation that causes only impossible events causes none. *)
Lemma only_False_nil {A} (m : Comp A) s :
  only (λ _, False) m → trace (m s) = [].
Proof.
  intros H. specialize (H s). destruct (trace (m s)); [done|].
  by inversion H.
Qed.

Lemma filter_staging_nil (t : list (Event DataFrame)) :
  Forall (λ e, is_staging e = false) t →
  filter (λ e, is_staging e = true) t = [].
Proof.
  induction 1 as [|e t He _ IH]; [done|].
  rewrite filter_cons, IH. destruct (decide _); congruence.
Qed.

(** ** The side a method keeps to *)

(** Each of the five operations keeps to the side the job-service URL
    selects: [_use_job_service] is the configuration's answer to whether
    the URL option is set; with the URL set an operation never calls the
    launcher and, when it returns, has called the job service; without it
    the operation never creates a channel or calls the job service and,
    when it returns, has called the launcher. *)
Lemma methods_follow_mode :
  _use_job_service feast = cfg_exists (_config feast) JOB_SERVICE_URL ∧
  (∀ feature_refs entity_source output_location,
     follows_mode feast
       (get_historical_features env feast feature_refs entity_source
          output_location : Comp _)) ∧
  (∀ feature_table start end_,
     follows_mode feast
       (start_offline_to_online_ingestion env feast feature_table start end_
        : Comp _)) ∧
  (∀ feature_table extra_jars project_arg,
     follows_mode feast
       (start_stream_to_online_ingestion env feast feature_table extra_jars
          project_arg : Comp _)) ∧
  (∀ include_terminated table_name,
     follows_mode feast
       (list_jobs env feast include_terminated table_name : Comp _)) ∧
  (∀ job_id, follows_mode feast (get_job_by_id env feast job_id : Comp _)).
Proof.
  split; [done|]. unfold follows_mode.
  destruct (_use_job_service feast) eqn:Hmode; split_and!; intros; split.
  - apply only_get_historical_features; intros; try done; try congruence.
    by apply only_stage_entity_source.
  - unfold get_historical_features, dispatch_retrieval. rewrite Hmode.
    do 5 (apply emits_bind_r; intros ?). apply emits_bind_r; intros ?.
    apply emits_bind_l. by apply emits_call_service.
  - unfold start_offline_to_online_ingestion. rewrite Hmode. simpl.
    apply only_bind; [by apply only_job_service|intros ?].
    apply only_bind; [by apply only_call_service|intros ?].
    apply only_bind; [by apply only_job_service|intros ?]. apply only_ret.
  - unfold start_offline_to_online_ingestion. rewrite Hmode. simpl.
    apply emits_bind_r; intros ?. apply emits_bind_l.
    by apply emits_call_service.
  - unfold start_stream_to_online_ingestion. rewrite Hmode. simpl.
    apply only_bind; [by apply only_job_service|intros ?].
    apply only_bind; [by apply only_call_service|intros ?].
    apply only_bind; [by apply only_job_service|intros ?]. apply only_ret.
  - unfold start_stream_to_online_ingestion. rewrite Hmode. simpl.
    apply emits_bind_r; intros ?. apply emits_bind_l.
    by apply emits_call_service.
  - unfold list_jobs. rewrite Hmode. simpl.
    apply only_bind; [by apply only_job_service|intros ?].
    apply only_bind; [by apply only_call_service|intros ?].
    by apply only_remote_jobs_from_protos.
  - unfold list_jobs. rewrite Hmode. simpl.
    apply emits_bind_r; intros ?. apply emits_bind_l.
    by apply emits_call_service.
  - unfold get_job_by_id. rewrite Hmode. simpl.
    apply only_bind; [by apply only_job_service|intros ?].
    apply only_bind; [by apply only_call_service|intros ?].
    apply only_bind; [by apply only_job_service|intros ?]. apply only_ret.
  - unfold get_job_by_id. rewrite Hmode. simpl.
    apply emits_bind_r; intros ?. apply emits_bind_l.
    by apply emits_call_service.
  - apply only_get_historical_features; intros; try done; try congruence.
    by apply only_stage_entity_source.
  - unfold get_historical_features, dispatch_retrieval. rewrite Hmode.
    do 5 (apply emits_bind_r; intros ?). apply emits_bind_l.
    by apply emits_call_launcher.
  - unfold start_offline_to_online_ingestion. rewrite Hmode. simpl.
    apply only_bind; [by apply only_call_launcher|intros ?]. apply only_ret.
  - unfold start_offline_to_online_ingestion. rewrite Hmode. simpl.
    apply emits_bind_l. by apply emits_call_launcher.
  - unfold start_stream_to_online_ingestion. rewrite Hmode. simpl.
    apply only_bind; [by apply only_call_launcher|intros ?]. apply only_ret.
  - unfold start_stream_to_online_ingestion. rewrite Hmode. simpl.
    apply emits_bind_l. by apply emits_call_launcher.
  - unfold list_jobs. rewrite Hmode. simpl.
    apply only_bind; [by apply only_call_launcher|intros ?]. apply only_ret.
  - unfold list_jobs. rewrite Hmode. simpl.
    apply emits_bind_l. by apply emits_call_launcher.
  - unfold get_job_by_id. rewrite Hmode. simpl.
    apply only_bind; [by apply only_call_launcher|intros ?]. apply only_ret.
  - unfold get_job_by_id. rewrite Hmode. simpl.
    apply emits_bind_l. by apply emits_call_launcher.
Qed.

(** ** Retrieval: the precondition and the staging decision *)

(** C3. When the feature tables resolve and the batch source of one of
    them has no created-timestamp column ([None] or the empty string),
    [get_historical_features] raises the assertion failure right after the
    registry has answered: it causes no event at all (no staging, no
    channel, no call of the job service or of the launcher), draws no
    identifier and leaves the state as it was. *)
Theorem missing_created_timestamp_fails_before_any_effect
    feature_refs entity_source output_location s feature_tables :
  _get_feature_tables_from_feature_refs (get_feature_table feast)
    feature_refs (project feast) = Ok feature_tables →
  (∃ ft, ft ∈ feature_tables ∧
         Py.truthy_opt (created_timestamp_column (ft_batch_source ft))
           = false) →
  ∃ msg,
    (get_historical_features env feast feature_refs entity_source
       output_location : Comp _) s
    = (Raise (AssertionError msg), [], s).
Proof.
  intros Hres (ft & Hin & Hft). eexists.
  unfold get_historical_features. rewrite bind_run. unfold lift at 1.
  rewrite Hres. rewrite bind_run.
  assert (Hall : forallb (λ ft, Py.truthy_opt
                   (created_timestamp_column (ft_batch_source ft)))
                   feature_tables = false).
  { apply not_true_is_false. intros Hall.
    rewrite forallb_forall in Hall. apply list_elem_of_In in Hin.
    specialize (Hall _ Hin). congruence. }
  rewrite Hall. reflexivity.
Qed.

Lemma first_bigquery_filter sources :
  match filter (λ source, is_BigQuerySource source = true) sources with
  | BigQuerySource _ _ table_ref :: _ =>
      first_bigquery_table_ref sources = Some table_ref ∧
      existsb is_BigQuerySource sources = true
  | FileSource _ _ _ _ :: _ => False
  | [] => first_bigquery_table_ref sources = None ∧
          existsb is_BigQuerySource sources = false
  end.
Proof.
  induction sources as [|[e c f u|e c r] sources IH]; [done|..].
  - rewrite filter_cons. destruct (decide _) as [Hd|Hd]; [done|]. exact IH.
  - rewrite filter_cons. destruct (decide _) as [Hd|Hd]; [done|].
    by destruct Hd.
Qed.

(** The events of the staging step. *)
Lemma stage_entity_source_trace df sources s :
  trace ((stage_entity_source env feast (InMemory df) sources : Comp _) s) =
  match first_bigquery_table_ref sources with
  | Some table_ref =>
      match table_reference_from_string env table_ref with
      | Ok r => [StageToBigQuery df (tr_project r) (tr_dataset_id r)]
      | Raise _ => []
      end
  | None =>
      match cfg_get (_config feast) SPARK_STAGING_LOCATION with
      | Ok location => [StageToFileSystem df location]
      | Raise _ => []
      end
  end.
Proof.
  unfold stage_entity_source.
  pose proof (first_bigquery_filter sources) as Hf.
  destruct (filter _ sources) as [|[e c f u|e c r] rest].
  - destruct Hf as [-> ->]. rewrite trace_bind. unfold config, lift.
    destruct (cfg_get _ _); outcome; [|done]. run.
    by destruct (stage_entities_to_fs env _ _ _ _).
  - done.
  - destruct Hf as [-> ->]. rewrite trace_bind. unfold lift.
    destruct (table_reference_from_string _ _); outcome; [|done]. run.
    by destruct (stage_entities_to_bq env _ _ _ _).
Qed.

Lemma compute_output_location_run out s :
  (compute_output_location env feast out : Comp _) s =
  match out with
  | Some l => (Ok l, [], s)
  | None =>
      match cfg_get (_config feast) HISTORICAL_FEATURE_OUTPUT_LOCATION with
      | Ok base =>
          (Ok (os_path.join base (Uuid.str (uuid4 env (uuids_drawn s)))),
           [], with_uuid_drawn s)
      | Raise e => (Raise e, [], s)
      end
  end.
Proof.
  unfold compute_output_location. destruct out as [l|]; [done|].
  unfold config. destruct (cfg_get _ _) as [base|e]; [|done].
  by rewrite bind_lift_ok.
Qed.

(** C2. The staging events of a retrieval call.  An entity source that is
    already a file or BigQuery source is never staged.  An in-memory
    entity table, in a call that gets as far as staging, is staged once:
    to BigQuery, into the project and dataset of the first BigQuery
    source among the batch sources of the resolved tables, in their
    order, when there is one (and then never to the file system);
    otherwise to the file system, at the configured staging location.
    Nothing is staged when the table reference does not parse or the
    staging location is not configured. *)
Theorem entity_staging_decision
    feature_refs entity_source output_location s :
  let staged :=
    filter (λ e, is_staging e = true)
      (trace ((get_historical_features env feast feature_refs entity_source
                 output_location : Comp _) s)) in
  (∀ source, entity_source = Staged source → staged = []) ∧
  (∀ df feature_tables,
     entity_source = InMemory df →
     reaches_staging feast feature_refs output_location feature_tables →
     staged =
     match first_bigquery_table_ref (map ft_batch_source feature_tables) with
     | Some table_ref =>
         match table_reference_from_string env table_ref with
         | Ok r => [StageToBigQuery df (tr_project r) (tr_dataset_id r)]
         | Raise _ => []
         end
     | None =>
         match cfg_get (_config feast) SPARK_STAGING_LOCATION with
         | Ok location => [StageToFileSystem df location]
         | Raise _ => []
         end
     end).
Proof.
  intros staged. subst staged. split.
  - intros source ->. apply filter_staging_nil.
    apply (only_get_historical_features (λ e, is_staging e = false));
      intros; try done. apply only_ret.
  - intros df fts -> (Hres & Hall & Hout & fmt & Hfmt).
    unfold get_historical_features.
    rewrite Hres, bind_lift_ok, Hall, bind_assert_true.
    assert (∃ out' s1,
      (compute_output_location env feast output_location : Comp _) s
      = (Ok out', [], s1)) as (out' & s1 & Hc).
    { rewrite compute_output_location_run.
      destruct output_location as [l|]; [by eauto|].
      destruct Hout as [base ->]; [done|]. by eauto. }
    rewrite (bind_silent _ _ _ _ _ Hc).
    unfold config. rewrite Hfmt, bind_lift_ok.
    rewrite trace_bind, filter_app, stage_entity_source_trace.
    rewrite (filter_staging_nil (match value _ with Ok _ => _ | Raise _ => _ end)).
    + rewrite app_nil_r.
      destruct (first_bigquery_table_ref _).
      * by destruct (table_reference_from_string _ _).
      * by destruct (cfg_get (_config feast) SPARK_STAGING_LOCATION).
    + destruct (value _); [|constructor].
      apply (only_dispatch_retrieval (λ e, is_staging e = false)); done.
Qed.

(** ** The stub is not cached *)

(** C5. [__init__] sets [_job_service_stub] to [None] and nothing ever
    assigns it; [_job_service] tests that attribute and stores the stub it
    builds in another one, [_job_service_service_stub].  So with the job
    service configured, two accesses in a row each create a channel, and
    the second returns a stub that is another object than the first. *)
Theorem job_service_builds_a_stub_on_every_access s channel :
  _use_job_service feast = true →
  _job_service_stub s = None →
  configured_channel feast = Ok channel →
  let first_access := (_job_service feast : Comp _) s in
  let second_access := (_job_service feast : Comp _) (final first_access) in
  ∃ stub1 stub2,
    value first_access = Ok (Some stub1) ∧
    value second_access = Ok (Some stub2) ∧
    stub_id stub1 ≠ stub_id stub2 ∧
    trace first_access = [CreateChannel channel] ∧
    trace second_access = [CreateChannel channel] ∧
    _job_service_stub (final second_access) = None.
Proof.
  intros Hmode Hs Hch. simpl.
  rewrite (job_service_run s Hs), Hmode, Hch. outcome.
  rewrite (job_service_run (with_new_stub s channel) Hs), Hmode, Hch.
  do 2 eexists. split_and!; try reflexivity; [|done].
  simpl. lia.
Qed.

(** ** Ingestion *)


Lemma only_start_stream_to_online_ingestion (P : Event DataFrame → Prop)
    ft jars proj :
  (∀ channel, P (CreateChannel channel)) →
  (∀ stub,
     P (Rpc stub (StartStreamToOnlineIngestionJobRequest (project feast)
                    (ft_name ft)) None)) →
  P (Launch (launcher.start_stream_to_online_ingestion
               (Py.or_else proj (project feast)) ft (Py.list_or jars []))) →
  only P (start_stream_to_online_ingestion env feast ft jars proj : Comp _).
Proof.
  intros Hch Hrpc Hlaunch. unfold start_stream_to_online_ingestion.
  destruct (_use_job_service feast); simpl.
  - apply only_bind; [by apply only_job_service|intros ?].
    apply only_bind; [by apply only_call_service|intros ?].
    apply only_bind; [by apply only_job_service|intros ?]. apply only_ret.
  - apply only_bind; [by apply only_call_launcher|intros ?]. apply only_ret.
Qed.


(** C10. The two optional arguments of stream ingestion.  In remote mode
    they change nothing: the outcome is the one of the call without them,
    and every call of the job service carries the client's configured
    project and the table name, and no list of jars.  In local mode the
    call of the launcher is the only event; it carries [project or
    self._feast.project], which is the passed project whenever one is
    passed (a non-empty string) and the configured one otherwise, and
    [extra_jars or []], which is the passed list, or the empty list when
    none is passed. *)
Theorem stream_ingestion_optional_arguments
    feature_table extra_jars project_arg s :
  let stream jars proj :=
    (start_stream_to_online_ingestion env feast feature_table jars proj
     : Comp _) in
  (_use_job_service feast = true →
     stream extra_jars project_arg s = stream None None s ∧
     Forall (rpc_is (StartStreamToOnlineIngestionJobRequest (project feast)
                       (ft_name feature_table)) None)
            (trace (stream extra_jars project_arg s))) ∧
  (_use_job_service feast = false →
     trace (stream extra_jars project_arg s) =
       [Launch (launcher.start_stream_to_online_ingestion
                  (Py.or_else project_arg (project feast)) feature_table
                  (Py.list_or extra_jars []))] ∧
     (∀ p, project_arg = Some p → p ≠ "" →
           Py.or_else project_arg (project feast) = Some p) ∧
     (project_arg = None →
        Py.or_else project_arg (project feast) = project feast) ∧
     Py.list_or extra_jars [] = default [] extra_jars).
Proof.
  simpl. split; intros Hmode.
  - split.
    + unfold start_stream_to_online_ingestion. by rewrite Hmode.
    + apply only_start_stream_to_online_ingestion; intros; intros ? ? ? [=];
        by subst.
  - split_and!.
    + unfold start_stream_to_online_ingestion, call_launcher.
      rewrite Hmode. simpl. run. outcome.
      by destruct (launcher_start env _ _) as [[job|e] w].
    + intros p -> Hp. by destruct p.
    + by intros ->.
    + by destruct extra_jars as [[|j js]|].
Qed.

(** ** Looking a job up *)

Lemma backend_get_job_unknown {J} (jobs : list (string * J)) id :
  id ∉ map fst jobs → backend_get_job jobs id = Raise (NotFoundError id).
Proof.
  induction jobs as [|[k j] jobs IH]; simpl; [done|].
  intros Hn. apply not_elem_of_cons in Hn as [Hk Hn].
  destruct (decide (k = id)); [congruence|auto].
Qed.

(** C8. With backends that look a job up as the specification says, an
    id the backend of the current mode does not know makes [get_job_by_id]
    raise [NotFoundError], the id in the error, in local mode and in remote
    mode: the client returns no handle and puts no other error in its
    place.  (In remote mode the access to the stub comes first; the
    configuration has to describe a channel for it.) *)
Theorem get_job_by_id_unknown_raises_not_found
    (local_jobs : B → list (string * LocalJob))
    (remote_jobs : B → list (string * JobProto)) job_id s :
  launcher_get_job_by_id env = spec_launcher_get_job_by_id local_jobs →
  svc_GetJob env = spec_GetJob remote_jobs →
  (if _use_job_service feast
   then job_id ∉ map fst (remote_jobs (world s))
   else job_id ∉ map fst (local_jobs (world s))) →
  (_use_job_service feast = true →
     _job_service_stub s = None ∧ ∃ channel, configured_channel feast = Ok channel) →
  value ((get_job_by_id env feast job_id : Comp _) s)
    = Raise (NotFoundError job_id).
Proof.
  intros Hl Hr Hunknown Hremote. unfold get_job_by_id.
  destruct (_use_job_service feast) eqn:Hmode; simpl.
  - destruct Hremote as [Hs [channel Hch]]; [done|].
    rewrite bind_run, (job_service_run s Hs), Hmode, Hch. simpl.
    rewrite Hr. unfold call_service. run. outcome.
    by rewrite (backend_get_job_unknown _ _ Hunknown).
  - rewrite Hl. unfold call_launcher. run. outcome.
    by rewrite (backend_get_job_unknown _ _ Hunknown).
Qed.

(** ** What the methods leave untouched *)

Section Keeps_client.
Context {X : Type} (part : State (B:=B) → X).
Hypothesis Hpart : ignores_rest part.

Lemma keeps_job_service : keeps part (_job_service feast : Comp _).
Proof.
  unfold _job_service.
  destruct (_use_job_service feast); simpl; [|apply keeps_ret].
  apply keeps_bind; [by intros s|intros stub].
  apply keeps_bind.
  - destruct (negb _); [|apply keeps_ret].
    repeat (apply keeps_bind; [apply keeps_lift|intros ?]).
    apply keeps_bind.
    + apply keeps_bind; [apply keeps_emit|intros ?; apply keeps_ret].
    + intros ch. intros s. unfold new_JobServiceStub, final. run.
      apply Hpart.
  - intros _. apply keeps_bind; [|intros ?; apply keeps_ret].
    intros s. unfold get__job_service_service_stub.
    by destruct (_job_service_service_stub s).
Qed.

Lemma keeps_call_service {R} service method
    (rpc : B → Request → result R * B) request kwargs :
  keeps part (call_service service method rpc request kwargs : Comp R).
Proof.
  destruct service as [stub|]; simpl; [|apply keeps_raise].
  apply keeps_bind; [apply keeps_emit|intros _; by apply keeps_extern].
Qed.

Lemma keeps_call_launcher {R} (f : B → launcher.Call → result R * B) call :
  keeps part (call_launcher f call : Comp R).
Proof.
  apply keeps_bind; [apply keeps_emit|intros _; by apply keeps_extern].
Qed.

Lemma keeps_stage_entity_source es sources :
  keeps part (stage_entity_source env feast es sources : Comp _).
Proof.
  unfold stage_entity_source.
  destruct es as [df|source]; [|apply keeps_ret].
  destruct (existsb _ _).
  - destruct (filter _ _) as [|[e c f u|e c r] rest];
      [apply keeps_raise..|].
    apply keeps_bind; [apply keeps_lift|intros ?].
    apply keeps_bind; [apply keeps_emit|intros ?]. by apply keeps_extern.
  - apply keeps_bind; [apply keeps_lift|intros ?].
    apply keeps_bind; [apply keeps_emit|intros ?]. by apply keeps_extern.
Qed.

Lemma keeps_dispatch_retrieval feature_refs fts es fmt out :
  keeps part
    (dispatch_retrieval env feast feature_refs fts es fmt out : Comp _).
Proof.
  unfold dispatch_retrieval. destruct (_use_job_service feast).
  - apply keeps_bind; [apply keeps_job_service|intros ?].
    apply keeps_bind; [apply keeps_call_service|intros ?].
    apply keeps_bind; [apply keeps_job_service|intros ?]. apply keeps_ret.
  - apply keeps_bind; [apply keeps_call_launcher|intros ?]. apply keeps_ret.
Qed.
End Keeps_client.

Lemma uuids_drawn_ignores_rest : ignores_rest (uuids_drawn (B:=B)).
Proof. by intros s cached objects w. Qed.

Lemma stub_ignores_rest : ignores_rest (_job_service_stub (B:=B)).
Proof. by intros s cached objects w. Qed.

End Client_facts.

(** ** Identifiers and paths *)

Example uuid_str_example :
  Uuid.str 0x12345678123456781234567812345678
  = "12345678-1234-5678-1234-567812345678" ∧
  Uuid.str 255 = "00000000-0000-0000-0000-0000000000ff".
Proof. split; vm_compute; reflexivity. Qed.

Example join_examples :
  os_path.join "gs://out" "x" = "gs://out/x" ∧
  os_path.join "gs://out/" "x" = "gs://out/x" ∧
  os_path.join "" "x" = "x" ∧
  os_path.join "gs://out" "/x" = "/x".
Proof. repeat split. Qed.

Lemma hex_digit_inj (a b : N) :
  (a < 16)%N → (b < 16)%N → Uuid.hex_digit a = Uuid.hex_digit b → a = b.
Proof.
  intros Ha Hb.
  assert (Ca : (a = 0 ∨ a = 1 ∨ a = 2 ∨ a = 3 ∨ a = 4 ∨ a = 5 ∨ a = 6 ∨ a = 7 ∨
                a = 8 ∨ a = 9 ∨ a = 10 ∨ a = 11 ∨ a = 12 ∨ a = 13 ∨ a = 14 ∨
                a = 15)%N) by lia.
  assert (Cb : (b = 0 ∨ b = 1 ∨ b = 2 ∨ b = 3 ∨ b = 4 ∨ b = 5 ∨ b = 6 ∨ b = 7 ∨
                b = 8 ∨ b = 9 ∨ b = 10 ∨ b = 11 ∨ b = 12 ∨ b = 13 ∨ b = 14 ∨
                b = 15)%N) by lia.
  clear Ha Hb.
  repeat (destruct Ca as [->|Ca]); try subst a;
    repeat (destruct Cb as [->|Cb]); try subst b;
    intros H; first [reflexivity | by vm_compute in H].
Qed.

Lemma hex_digit_not_sep (d : N) : Uuid.hex_digit d ≠ "/"%char.
Proof. unfold Uuid.hex_digit. repeat case_match; done. Qed.

Lemma hex_fixed_length (w : nat) (n : N) :
  List.length (Uuid.hex_fixed w n) = w.
Proof.
  revert n. induction w as [|w IH]; intros n; simpl; [done|].
  rewrite length_app, IH. simpl. lia.
Qed.

Lemma hex_fixed_inj (w : nat) (n m : N) :
  (n < 16 ^ N.of_nat w)%N → (m < 16 ^ N.of_nat w)%N →
  Uuid.hex_fixed w n = Uuid.hex_fixed w m → n = m.
Proof.
  revert n m. induction w as [|w IH]; intros n m Hn Hm; simpl.
  - simpl in *. lia.
  - rewrite Nat2N.inj_succ, N.pow_succ_r' in Hn, Hm.
    intros H. apply app_inj_tail in H as [H1 H2].
    apply IH in H1; [|by apply N.Div0.div_lt_upper_bound..].
    apply hex_digit_inj in H2; [|by apply N.mod_lt..].
    rewrite (N.div_mod' n 16), (N.div_mod' m 16). congruence.
Qed.

Lemma hex_len_bound (n : N) : (n < 16 ^ N.of_nat (Uuid.hex_len n))%N.
Proof.
  unfold Uuid.hex_len. rewrite N2Nat.id.
  change 16%N with (2 ^ 4)%N. rewrite <- N.pow_mul_r.
  eapply N.lt_le_trans; [apply N.size_gt|].
  apply N.pow_le_mono_r; [done|].
  pose proof (N.div_mod' (N.size n + 3) 4).
  pose proof (N.mod_lt (N.size n + 3) 4). lia.
Qed.

Lemma format_032x_length (n : N) :
  List.length (Uuid.format_032x n) = Nat.max 32 (Uuid.hex_len n).
Proof. apply hex_fixed_length. Qed.

Lemma format_032x_inj (n m : N) :
  Uuid.format_032x n = Uuid.format_032x m → n = m.
Proof.
  intros H. pose proof (f_equal (@List.length _) H) as Hlen.
  rewrite !format_032x_length in Hlen.
  unfold Uuid.format_032x in H. rewrite <- Hlen in H.
  apply hex_fixed_inj in H; [done|..].
  - eapply N.lt_le_trans; [apply hex_len_bound|].
    apply N.pow_le_mono_r; [done|]. lia.
  - rewrite Hlen. eapply N.lt_le_trans; [apply hex_len_bound|].
    apply N.pow_le_mono_r; [done|]. lia.
Qed.

Lemma hex_fixed_head (w : nat) (n : N) :
  ∃ d rest, Uuid.hex_fixed (S w) n = Uuid.hex_digit d :: rest.
Proof.
  revert n. induction w as [|w IH]; intros n.
  - by exists (n mod 16)%N, [].
  - destruct (IH (n / 16)%N) as (d & rest & E).
    exists d, (rest ++ [Uuid.hex_digit (n mod 16)]).
    change (Uuid.hex_fixed (S (S w)) n)
      with (Uuid.hex_fixed (S w) (n / 16) ++ [Uuid.hex_digit (n mod 16)]).
    by rewrite E.
Qed.

(** Two identifiers are written differently. *)
Lemma uuid_str_inj (n m : N) : Uuid.str n = Uuid.str m → n = m.
Proof.
  unfold Uuid.str. intros H. apply format_032x_inj.
  apply (f_equal list_ascii_of_string) in H.
  rewrite !list_ascii_of_string_of_list_ascii in H.
  pose proof (format_032x_length n) as Ln.
  pose proof (format_032x_length m) as Lm.
  destruct (Uuid.format_032x n) as [|a1 hn]; [simpl in Ln; lia|].
  destruct (Uuid.format_032x m) as [|b1 hm]; [simpl in Lm; lia|].
  do 19 (destruct hn as [|? hn]; [simpl in Ln; lia|]).
  do 19 (destruct hm as [|? hm]; [simpl in Lm; lia|]).
  simpl in H. by simplify_eq.
Qed.

(** The text of an identifier does not start with the path separator. *)
Lemma uuid_str_relative (n : N) : os_path.startswith_sep (Uuid.str n) = false.
Proof.
  unfold Uuid.str, Uuid.format_032x.
  destruct (Nat.max 32 (Uuid.hex_len n)) as [|w] eqn:E; [lia|].
  destruct (hex_fixed_head w n) as (d & rest & ->). simpl.
  pose proof (hex_digit_not_sep d) as Hd.
  destruct (Uuid.hex_digit d) as [[] [] [] [] [] [] [] []]; done.
Qed.

Lemma string_app_inv_head (a b c : string) :
  (a ++ b)%string = (a ++ c)%string → b = c.
Proof. induction a as [|x a IH]; simpl; [done|]. intros [= H]. auto. Qed.

(** Joining two different relative names to one base gives two different
    paths. *)
Lemma join_inj (base u v : string) :
  os_path.startswith_sep u = false → os_path.startswith_sep v = false →
  os_path.join base u = os_path.join base v → u = v.
Proof.
  unfold os_path.join. intros -> ->.
  destruct (negb (Py.truthy base) || os_path.endswith_sep base).
  - apply string_app_inv_head.
  - intros H. apply string_app_inv_head in H. by injection H.
Qed.

(** ** Output locations *)

Section Output_location.
Context {DataFrame LocalJob B : Type}.
Variable env : Collaborators (DataFrame:=DataFrame) (LocalJob:=LocalJob) (B:=B).
Variable feast : FeastClient.
Implicit Types s : State (B:=B).
Local Abbreviation Comp := (M (DataFrame:=DataFrame) (B:=B)).

(** A retrieval call without an output location either causes no event,
    or draws exactly one identifier, and every submission it makes carries
    the configured base location joined with the text of that identifier. *)
Lemma retrieval_output_location feature_refs es s :
  let o := (get_historical_features env feast feature_refs es None
            : Comp _) s in
  trace o = [] ∨
  ∃ base,
    cfg_get (_config feast) HISTORICAL_FEATURE_OUTPUT_LOCATION = Ok base ∧
    uuids_drawn (final o) = S (uuids_drawn s) ∧
    Forall (λ e, ∀ l, output_location_of e = Some l →
              l = os_path.join base (Uuid.str (uuid4 env (uuids_drawn s))))
           (trace o).
Proof.
  simpl. unfold get_historical_features.
  destruct (_get_feature_tables_from_feature_refs _ _ _) as [fts|e];
    [|by left].
  rewrite bind_lift_ok.
  destruct (forallb _ fts); [|by left].
  rewrite bind_assert_true.
  pose proof (compute_output_location_run env feast None s) as Hc.
  cbv beta iota in Hc.
  destruct (cfg_get (_config feast) HISTORICAL_FEATURE_OUTPUT_LOCATION)
    as [base|e] eqn:Hbase.
  2:{ left. rewrite trace_bind, Hc. reflexivity. }
  rewrite (bind_silent _ _ _ _ _ Hc). unfold config.
  destruct (cfg_get (_config feast) HISTORICAL_FEATURE_OUTPUT_FORMAT)
    as [fmt|e]; [|by left].
  rewrite bind_lift_ok. right. exists base. split; [done|]. split.
  - change (S (uuids_drawn s)) with (uuids_drawn (with_uuid_drawn s)).
    apply (keeps_bind uuids_drawn).
    + apply keeps_stage_entity_source, uuids_drawn_ignores_rest.
    + intros es'. apply keeps_dispatch_retrieval, uuids_drawn_ignores_rest.
  - apply only_bind.
    + apply only_stage_entity_source; intros; simpl in *; congruence.
    + intros es'. apply only_dispatch_retrieval; intros; simpl in *;
        congruence.
Qed.

(** C7. Take an identifier generator that never repeats, a retrieval call
    without an output location, and a later call with the same arguments,
    made in any state reached after the first call (the state the first
    call leaves, or a later one).  Whenever both calls submit a job, the
    two output locations are different, and each is the configured base
    location joined with the text of the identifier the call drew. *)
Theorem fresh_output_locations_are_distinct
    feature_refs entity_source s s' l1 l2 :
  (∀ i j, uuid4 env i = uuid4 env j → i = j) →
  let first_call :=
    (get_historical_features env feast feature_refs entity_source None
     : Comp _) s in
  let second_call :=
    (get_historical_features env feast feature_refs entity_source None
     : Comp _) s' in
  uuids_drawn (final first_call) ≤ uuids_drawn s' →
  Some l1 ∈ map output_location_of (trace first_call) →
  Some l2 ∈ map output_location_of (trace second_call) →
  l1 ≠ l2 ∧
  ∃ base,
    cfg_get (_config feast) HISTORICAL_FEATURE_OUTPUT_LOCATION = Ok base ∧
    l1 = os_path.join base (Uuid.str (uuid4 env (uuids_drawn s))) ∧
    l2 = os_path.join base (Uuid.str (uuid4 env (uuids_drawn s'))).
Proof.
  intros Hfresh first_call second_call Hlater H1 H2.
  apply list_elem_of_fmap in H1 as (e1 & He1 & Hin1).
  apply list_elem_of_fmap in H2 as (e2 & He2 & Hin2).
  destruct (retrieval_output_location feature_refs entity_source s)
    as [Hnil|(base & Hbase & Hdrawn & Hall1)];
    [fold first_call in Hnil; rewrite Hnil in Hin1; by inversion Hin1|].
  destruct (retrieval_output_location feature_refs entity_source s')
    as [Hnil|(base' & Hbase' & _ & Hall2)];
    [fold second_call in Hnil; rewrite Hnil in Hin2; by inversion Hin2|].
  fold first_call in Hdrawn, Hall1. fold second_call in Hall2.
  rewrite Hbase in Hbase'. injection Hbase' as <-.
  rewrite Forall_forall in Hall1, Hall2.
  pose proof (Hall1 e1 Hin1 l1 (eq_sym He1)) as E1.
  pose proof (Hall2 e2 Hin2 l2 (eq_sym He2)) as E2.
  split; [|by eauto].
  rewrite E1, E2. intros Heq.
  apply join_inj in Heq; [|apply uuid_str_relative..].
  apply uuid_str_inj, Hfresh in Heq. lia.
Qed.

End Output_location.

(** ** No method assigns [_job_service_stub] *)

Section Stub_invariant.
Context {DataFrame LocalJob B : Type}.
Variable env : Collaborators (DataFrame:=DataFrame) (LocalJob:=LocalJob) (B:=B).
Variable feast : FeastClient.
Local Abbreviation Comp := (M (DataFrame:=DataFrame) (B:=B)).
Local Abbreviation stub := (_job_service_stub (B:=B)).

Lemma keeps_stub_compute_output_location out :
  keeps stub (compute_output_location env feast out : Comp _).
Proof.
  intros s. rewrite compute_output_location_run.
  destruct out; [done|]. by destruct (cfg_get _ _).
Qed.

Lemma keeps_stub_remote_jobs_from_protos jobs :
  keeps stub (remote_jobs_from_protos (LocalJob:=LocalJob) feast jobs : Comp _).
Proof.
  induction jobs as [|job jobs IH]; simpl; [apply keeps_ret|].
  apply keeps_bind; [apply keeps_job_service, stub_ignores_rest|intros ?].
  apply keeps_bind; [exact IH|intros ?; apply keeps_ret].
Qed.

(** X18. A state in which [_job_service_stub] is [None], as [__init__]
    leaves it, stays so through every method: none of them assigns the
    attribute the property [_job_service] tests. *)
Lemma methods_keep_job_service_stub :
  (∀ objects uuids (w : B), stub (__init__ objects uuids w) = None) ∧
  (∀ feature_refs es out,
     keeps stub (get_historical_features env feast feature_refs es out
                 : Comp _)) ∧
  (∀ ft start end_,
     keeps stub (start_offline_to_online_ingestion env feast ft start end_
                 : Comp _)) ∧
  (∀ ft jars proj,
     keeps stub (start_stream_to_online_ingestion env feast ft jars proj
                 : Comp _)) ∧
  (∀ include_terminated table_name,
     keeps stub (list_jobs env feast include_terminated table_name : Comp _)) ∧
  (∀ job_id, keeps stub (get_job_by_id env feast job_id : Comp _)).
Proof.
  pose proof (stub_ignores_rest (B:=B)) as Hi.
  split_and!; [done|intros..].
  - unfold get_historical_features.
    apply keeps_bind; [apply keeps_lift|intros ?].
    apply keeps_bind; [apply keeps_assert|intros ?].
    apply keeps_bind; [apply keeps_stub_compute_output_location|intros ?].
    apply keeps_bind; [apply keeps_lift|intros ?]. simpl.
    apply keeps_bind; [by apply keeps_stage_entity_source|intros ?].
    by apply keeps_dispatch_retrieval.
  - unfold start_offline_to_online_ingestion.
    destruct (_use_job_service feast); simpl.
    + apply keeps_bind; [by apply keeps_job_service|intros ?].
      apply keeps_bind; [by apply keeps_call_service|intros ?].
      apply keeps_bind; [by apply keeps_job_service|intros ?].
      apply keeps_ret.
    + apply keeps_bind; [by apply keeps_call_launcher|intros ?].
      apply keeps_ret.
  - unfold start_stream_to_online_ingestion.
    destruct (_use_job_service feast); simpl.
    + apply keeps_bind; [by apply keeps_job_service|intros ?].
      apply keeps_bind; [by apply keeps_call_service|intros ?].
      apply keeps_bind; [by apply keeps_job_service|intros ?].
      apply keeps_ret.
    + apply keeps_bind; [by apply keeps_call_launcher|intros ?].
      apply keeps_ret.
  - unfold list_jobs. destruct (_use_job_service feast); simpl.
    + apply keeps_bind; [by apply keeps_job_service|intros ?].
      apply keeps_bind; [by apply keeps_call_service|intros ?].
      apply keeps_stub_remote_jobs_from_protos.
    + apply keeps_bind; [by apply keeps_call_launcher|intros ?].
      apply keeps_ret.
  - unfold get_job_by_id. destruct (_use_job_service feast); simpl.
    + apply keeps_bind; [by apply keeps_job_service|intros ?].
      apply keeps_bind; [by apply keeps_call_service|intros ?].
      apply keeps_bind; [by apply keeps_job_service|intros ?].
      apply keeps_ret.
    + apply keeps_bind; [by apply keeps_call_launcher|intros ?].
      apply keeps_ret.
Qed.

End Stub_invariant.

(** ** The theorems at the fixture *)

Section Witnesses.
Import Fixture.

Lemma nonadjacent_references_witness :
  ∃ (p q : nat) (run_a run_b : list string) (t fa fb : FeatureTable),
    p < q ∧
    Py.groupby table_of_ref scattered_refs !! p = Some ("bookings", run_a) ∧
    Py.groupby table_of_ref scattered_refs !! q = Some ("bookings", run_b) ∧
    "bookings:bookings_7d" ∈ run_a ∧ "bookings:bookings_14d" ∈ run_b ∧
    registry "bookings" (Some "proj1") = Ok t ∧
    [set_features bookings [mkFeature "bookings_7d" "INT64"];
     set_features driver [mkFeature "conv_rate" "FLOAT"];
     set_features bookings [mkFeature "bookings_14d" "INT64"]] !! p
      = Some fa ∧ pruned_to t run_a fa ∧
    [set_features bookings [mkFeature "bookings_7d" "INT64"];
     set_features driver [mkFeature "conv_rate" "FLOAT"];
     set_features bookings [mkFeature "bookings_14d" "INT64"]] !! q
      = Some fb ∧ pruned_to t run_b fb.
Proof.
  apply (nonadjacent_references_resolved_separately registry scattered_refs
           (Some "proj1") 0 1 2 "bookings:bookings_7d" "driver:conv_rate"
           "bookings:bookings_14d").
  - lia.
  - lia.
  - reflexivity.
  - reflexivity.
  - reflexivity.
  - reflexivity.
  - vm_compute. discriminate.
  - vm_compute. reflexivity.
Defined.

Lemma missing_created_timestamp_witness :
  ∃ msg,
    get_historical_features collaborators (feast_client true)
      ["bookings:bookings_7d"; "legacy:clicks"] (InMemory entities) None fresh
    = (Raise (AssertionError msg), [], fresh).
Proof.
  apply (missing_created_timestamp_fails_before_any_effect collaborators
           (feast_client true) ["bookings:bookings_7d"; "legacy:clicks"]
           (InMemory entities) None fresh
           [set_features bookings [mkFeature "bookings_7d" "INT64"];
            set_features legacy [mkFeature "clicks" "INT64"]]).
  - vm_compute. reflexivity.
  - exists (set_features legacy [mkFeature "clicks" "INT64"]). split.
    + apply list_elem_of_further, list_elem_of_here.
    + reflexivity.
Defined.

Lemma mixed_reaches_staging :
  reaches_staging (feast_client true) mixed_refs None mixed_tables.
Proof.
  split; [vm_compute; reflexivity|]. split; [reflexivity|].
  split; [intros _; by exists "gs://out"|by exists "parquet"].
Defined.

Lemma entity_staging_decision_witness :
  filter (λ e, is_staging e = true)
    (trace (get_historical_features collaborators (feast_client true)
              mixed_refs (InMemory entities) None fresh))
  = [StageToBigQuery entities "gcp-project" "warehouse"].
Proof.
  exact (proj2 (entity_staging_decision collaborators (feast_client true)
                  mixed_refs (InMemory entities) None fresh)
           entities mixed_tables eq_refl mixed_reaches_staging).
Defined.

Lemma job_service_witness :
  ∃ stub1 stub2,
    value (_job_service (DataFrame:=Frame) (feast_client true) fresh)
      = Ok (Some stub1) ∧
    value (_job_service (DataFrame:=Frame) (feast_client true)
             (final (_job_service (DataFrame:=Frame) (feast_client true)
                       fresh)))
      = Ok (Some stub2) ∧
    stub_id stub1 ≠ stub_id stub2 ∧
    trace (_job_service (DataFrame:=Frame) (feast_client true) fresh)
      = [CreateChannel channel] ∧
    trace (_job_service (DataFrame:=Frame) (feast_client true)
             (final (_job_service (DataFrame:=Frame) (feast_client true)
                       fresh)))
      = [CreateChannel channel] ∧
    _job_service_stub
      (final (_job_service (DataFrame:=Frame) (feast_client true)
                (final (_job_service (DataFrame:=Frame) (feast_client true)
                          fresh)))) = None.
Proof.
  apply (job_service_builds_a_stub_on_every_access (DataFrame:=Frame)
           (feast_client true) fresh channel).
  - reflexivity.
  - reflexivity.
  - reflexivity.
Defined.

Lemma get_job_by_id_witness :
  value (get_job_by_id collaborators (feast_client true) "unknown-id" fresh)
    = Raise (NotFoundError "unknown-id") ∧
  value (get_job_by_id collaborators (feast_client false) "unknown-id" fresh)
    = Raise (NotFoundError "unknown-id").
Proof.
  split.
  - apply (get_job_by_id_unknown_raises_not_found collaborators
             (feast_client true) (λ w, w) (λ w, w) "unknown-id" fresh).
    + reflexivity.
    + reflexivity.
    + change ("unknown-id" ∉ map fst (world fresh)).
      apply (bool_decide_unpack _). vm_compute. exact I.
    + intros _. split; [reflexivity|]. exists channel. reflexivity.
  - apply (get_job_by_id_unknown_raises_not_found collaborators
             (feast_client false) (λ w, w) (λ w, w) "unknown-id" fresh).
    + reflexivity.
    + reflexivity.
    + change ("unknown-id" ∉ map fst (world fresh)).
      apply (bool_decide_unpack _). vm_compute. exact I.
    + intros H. vm_compute in H. discriminate H.
Defined.

Lemma fresh_output_locations_witness :
  "gs://out/00000000-0000-0000-0000-000000000000"
    ≠ "gs://out/00000000-0000-0000-0000-000000000001" ∧
  ∃ base,
    cfg_get (_config (feast_client false)) HISTORICAL_FEATURE_OUTPUT_LOCATION
      = Ok base ∧
    "gs://out/00000000-0000-0000-0000-000000000000"
      = os_path.join base
          (Uuid.str (uuid4 collaborators (uuids_drawn fresh))) ∧
    "gs://out/00000000-0000-0000-0000-000000000001"
      = os_path.join base
          (Uuid.str
             (uuid4 collaborators
                (uuids_drawn
                   (final (get_historical_features collaborators
                             (feast_client false) mixed_refs
                             (InMemory entities) None fresh))))).
Proof.
  apply (fresh_output_locations_are_distinct collaborators
           (feast_client false) mixed_refs (InMemory entities) fresh
           (final (get_historical_features collaborators
                     (feast_client false) mixed_refs (InMemory entities)
                     None fresh))).
  - intros i j H. simpl in H. lia.
  - apply le_n.
  - vm_compute. apply list_elem_of_further, list_elem_of_here.
  - vm_compute. apply list_elem_of_further, list_elem_of_here.
Defined.

Lemma stream_ingestion_witness :
  (start_stream_to_online_ingestion collaborators (feast_client true)
     driver (Some ["gs://jars/kafka.jar"]) (Some "proj2") fresh
   = start_stream_to_online_ingestion collaborators (feast_client true)
       driver None None fresh) ∧
  trace (start_stream_to_online_ingestion collaborators (feast_client false)
           driver (Some ["gs://jars/kafka.jar"]) (Some "proj2") fresh)
  = [Launch (launcher.start_stream_to_online_ingestion (Some "proj2") driver
               ["gs://jars/kafka.jar"])].
Proof.
  split.
  - apply (proj1 (stream_ingestion_optional_arguments collaborators
                    (feast_client true) driver (Some ["gs://jars/kafka.jar"])
                    (Some "proj2") fresh)).
    reflexivity.
  - apply (proj2 (stream_ingestion_optional_arguments collaborators
                    (feast_client false) driver
                    (Some ["gs://jars/kafka.jar"]) (Some "proj2") fresh)).
    reflexivity.
Defined.

(** The requests of the two ingestion operations, in remote mode. *)
Example batch_ingestion_remote :
  trace (start_offline_to_online_ingestion collaborators (feast_client true)
           driver 1600000000000000%Z 1600086400000000%Z fresh)
  = [CreateChannel channel;
     Rpc (mkStub 0 channel)
       (StartOfflineToOnlineIngestionJobRequest (Some "proj1") "driver"
          (mkTimestamp 1600000000 0) (mkTimestamp 1600086400 0)) None;
     CreateChannel channel].
Proof. vm_compute. reflexivity. Qed.

Example stream_ingestion_remote :
  trace (start_stream_to_online_ingestion collaborators (feast_client true)
           driver (Some ["gs://jars/kafka.jar"]) (Some "proj2") fresh)
  = [CreateChannel channel;
     Rpc (mkStub 0 channel)
       (StartStreamToOnlineIngestionJobRequest (Some "proj1") "driver") None;
     CreateChannel channel].
Proof. vm_compute. reflexivity. Qed.

(** Without a BigQuery source the entity table goes to the staging
    location. *)
Example staging_to_file_system :
  filter (λ e, is_staging e = true)
    (trace (get_historical_features collaborators (feast_client false)
              ["driver:conv_rate"] (InMemory entities) None fresh))
  = [StageToFileSystem entities "gs://staging"].
Proof. vm_compute. reflexivity. Qed.

(** One retrieval in remote mode creates two channels. *)
Example retrieval_creates_two_channels :
  List.length
    (filter (λ e, is_create_channel e = true)
       (trace (get_historical_features collaborators (feast_client true)
                 mixed_refs (InMemory entities) None fresh))) = 2.
Proof. vm_compute. reflexivity. Qed.
End Witnesses.

(** * Further properties *)

(** ** References *)

Lemma string_app_assoc (a b c : string) :
  ((a ++ b) ++ c)%string = (a ++ (b ++ c))%string.
Proof.
  induction a as [|x a IH]; [done|].
  change (String x ((a ++ b) ++ c) = String x (a ++ b ++ c))%string.
  by rewrite IH.
Qed.

(** X1. A reference written [table:feature], with no colon inside either
    part, splits back into its two parts. *)
Theorem reference_round_trip (t f : string) :
  contains ":" t = false → contains ":" f = false →
  table_of_ref (t ++ ":" ++ f)%string = t ∧
  feature_of_ref (t ++ ":" ++ f)%string = f.
Proof.
  intros Ht Hf. split.
  - rewrite table_of_ref_before_first. by apply before_first_app.
  - by apply feature_of_ref_app.
Qed.

(** X2. A reference without a colon is not rejected: it names itself as
    the table and as the feature. *)
Theorem reference_without_colon (x : string) :
  contains ":" x = false → table_of_ref x = x ∧ feature_of_ref x = x.
Proof.
  intros Hx. unfold table_of_ref, feature_of_ref.
  by rewrite (split_no_sep _ _ Hx).
Qed.

(** X3. With more than one colon the table is what stands before the first
    and the feature what stands after the last; what lies between is
    ignored, so [t:mid:f] asks for the same as [t:f]. *)
Theorem reference_middle_is_ignored (t mid f : string) :
  contains ":" t = false → contains ":" f = false →
  table_of_ref (t ++ ":" ++ mid ++ ":" ++ f)%string
    = table_of_ref (t ++ ":" ++ f)%string ∧
  feature_of_ref (t ++ ":" ++ mid ++ ":" ++ f)%string
    = feature_of_ref (t ++ ":" ++ f)%string.
Proof.
  intros Ht Hf.
  destruct (reference_round_trip t f Ht Hf) as [-> ->]. split.
  - rewrite table_of_ref_before_first. by apply before_first_app.
  - replace (t ++ ":" ++ mid ++ ":" ++ f)%string
      with ((t ++ ":" ++ mid) ++ String ":" f)%string
      by (rewrite !string_app_assoc; reflexivity).
    by apply final_split_app.
Qed.

(** ** More on feature-table resolution *)

Lemma groupby_from_constant {A K} `{EqDecision K} (key : A → K) k l :
  ∀ g, Forall (λ x, key x = k) l →
  Py.groupby_from key k g l = [(k, rev g ++ l)].
Proof.
  induction l as [|x l IH]; intros g Hl; simpl.
  - by rewrite app_nil_r.
  - inversion Hl as [|? ? Hx Hl']; subst.
    destruct (decide (key x = key x)); [|done].
    rewrite IH by done. simpl. by rewrite <- app_assoc.
Qed.

Lemma groupby_constant {A K} `{EqDecision K} (key : A → K) k l :
  l ≠ [] → Forall (λ x, key x = k) l → Py.groupby key l = [(k, l)].
Proof.
  destruct l as [|x l]; [done|]. intros _ Hl. simpl.
  inversion Hl as [|? ? Hx Hl']; subst.
  by rewrite groupby_from_constant.
Qed.

Lemma filter_ext_in {A} (P Q : A → Prop) `{∀ x, Decision (P x)}
    `{∀ x, Decision (Q x)} (l : list A) :
  (∀ x, x ∈ l → (P x ↔ Q x)) → filter P l = filter Q l.
Proof.
  induction l as [|x l IH]; intros HPQ; [done|].
  rewrite !filter_cons.
  assert (HPx : P x ↔ Q x) by (apply HPQ; left).
  rewrite IH by (intros y Hy; apply HPQ; by right).
  destruct (decide (P x)), (decide (Q x)); tauto.
Qed.

(** X4. A request for one table is answered by what it asks of the
    declared features only: two non-empty lists of references to the same
    table that name the same declared features resolve to the same single
    definition, whatever the order of the references, however often one is
    repeated, and whatever undeclared names they add. *)
Theorem single_table_request_depends_on_declared_names
    (reg : string → option string → result FeatureTable)
    (project : option string) (t : string) (refs1 refs2 : list string)
    (table : FeatureTable) :
  refs1 ≠ [] → refs2 ≠ [] →
  Forall (λ x, table_of_ref x = t) refs1 →
  Forall (λ x, table_of_ref x = t) refs2 →
  reg t project = Ok table →
  (∀ f, f ∈ ft_features table →
        (feature_name f ∈ map feature_of_ref refs1 ↔
         feature_name f ∈ map feature_of_ref refs2)) →
  _get_feature_tables_from_feature_refs reg refs1 project
    = _get_feature_tables_from_feature_refs reg refs2 project ∧
  _get_feature_tables_from_feature_refs reg refs1 project
    = Ok [set_features table
            (filter (λ f, feature_name f ∈ map feature_of_ref refs1)
                    (ft_features table))].
Proof.
  intros H1 H2 Ht1 Ht2 Hreg Hsame.
  unfold _get_feature_tables_from_feature_refs.
  rewrite (groupby_constant _ t refs1), (groupby_constant _ t refs2) by done.
  simpl. rewrite Hreg. simpl.
  by rewrite (filter_ext_in _ _ _ Hsame).
Qed.

Lemma resolve_groups_first_failure reg project gs :
  ∀ acc e,
  resolve_groups reg project gs acc = Raise e ↔
  ∃ (i : nat) (g : string * list string),
    gs !! i = Some g ∧ reg g.1 project = Raise e ∧
    ∀ (j : nat) (g' : string * list string),
      j < i → gs !! j = Some g' → ∃ t, reg g'.1 project = Ok t.
Proof.
  induction gs as [|[k refs] gs IH]; intros acc e; simpl.
  - split; [done|]. by intros (i & g & Hi & _).
  - destruct (reg k project) as [t|e'] eqn:Hk.
    + rewrite IH. split.
      * intros (i & g & Hi & Hg & Hbefore). exists (S i), g.
        split_and!; [done..|]. intros [|j] g' Hj Hg'.
        -- injection Hg' as <-. eauto.
        -- apply (Hbefore j); [lia|done].
      * intros (i & g & Hi & Hg & Hbefore). destruct i as [|i].
        -- injection Hi as <-. simpl in Hg. congruence.
        -- exists i, g. split_and!; [done..|]. intros j g' Hj Hg'.
           apply (Hbefore (S j)); [lia|done].
    + split.
      * intros [= <-]. exists 0, (k, refs).
        split_and!; [done..|]. intros j g' Hj. lia.
      * intros (i & g & Hi & Hg & Hbefore). destruct i as [|i].
        -- injection Hi as <-. simpl in Hg. congruence.
        -- destruct (Hbefore 0 (k, refs)) as [t Ht]; [lia|done|].
           simpl in Ht. congruence.
Qed.

(** X5. The resolver fails exactly when the registry fails for some run,
    and then with the error of the first such run, in the order of the
    request: every run before it was found. *)
Theorem resolver_raises_first_failing_lookup
    (reg : string → option string → result FeatureTable)
    (feature_refs : list string) (project : option string) (e : exn) :
  _get_feature_tables_from_feature_refs reg feature_refs project = Raise e ↔
  ∃ (i : nat) (run : string * list string),
    Py.groupby table_of_ref feature_refs !! i = Some run ∧
    reg run.1 project = Raise e ∧
    ∀ (j : nat) (earlier : string * list string),
      j < i → Py.groupby table_of_ref feature_refs !! j = Some earlier →
      ∃ t, reg earlier.1 project = Ok t.
Proof. apply resolve_groups_first_failure. Qed.

Lemma runs_no_more_than_elements {A K} (key : A → K) (l : list A)
    (gs : list (K * list A)) :
  contiguous_runs key l gs → List.length gs ≤ List.length l.
Proof.
  intros (Hcat & Hne & _). subst l. induction gs as [|[k g] gs IH]; [done|].
  inversion Hne as [|? ? [Hg _] Hne']; subst. simpl in *.
  rewrite length_app. destruct g; [done|]. simpl. specialize (IH Hne'). lia.
Qed.

(** X6. When the resolver returns, it returns as many definitions as the
    request has runs, never more than it has references, and none exactly
    when the request is empty. *)
Theorem resolver_result_size
    (reg : string → option string → result FeatureTable)
    (feature_refs : list string) (project : option string)
    (feature_tables : list FeatureTable) :
  _get_feature_tables_from_feature_refs reg feature_refs project
    = Ok feature_tables →
  List.length feature_tables
    = List.length (Py.groupby table_of_ref feature_refs) ∧
  List.length feature_tables ≤ List.length feature_refs ∧
  (feature_tables = [] ↔ feature_refs = []).
Proof.
  intros Hres.
  destruct (resolver_runs_pruned reg feature_refs project) as [Hruns HF].
  rewrite Hres in HF. apply Forall2_length in HF.
  pose proof (runs_no_more_than_elements _ _ _ Hruns) as Hle.
  split_and!; [done|lia|]. split.
  - intros ->. simpl in HF. destruct feature_refs as [|x l]; [done|].
    simpl in HF. destruct (groupby_from_runs table_of_ref l (table_of_ref x) [x])
      as (g' & rest & E & _); [done|by constructor|].
    rewrite E in HF. done.
  - intros ->. simpl in HF. by destruct feature_tables.
Qed.

(** ** Outcomes of the remote and the local branch *)

Section Branch_outcomes.
Context {DataFrame LocalJob B : Type}.
Variable env : Collaborators (DataFrame:=DataFrame) (LocalJob:=LocalJob) (B:=B).
Variable feast : FeastClient.
Implicit Types s : State (B:=B).
Local Abbreviation Comp := (M (DataFrame:=DataFrame) (B:=B)).

Lemma bind_known {A C} (m : Comp A) (f : A → Comp C) s a t s1 :
  m s = (Ok a, t, s1) →
  (m ≫= f) s = let '(r, t', s2) := f a s1 in (r, t ++ t', s2).
Proof. intros H. by rewrite bind_run, H. Qed.

Lemma call_service_run {R} stub method (rpc : B → Request → result R * B)
    request kwargs s :
  (call_service (Some stub) method rpc request kwargs : Comp R) s =
  let '(r, w) := rpc (world s) request in
  (r, [Rpc stub request kwargs], with_world s w).
Proof.
  unfold call_service. run. by destruct (rpc (world s) request) as [[a|e] w].
Qed.

Lemma call_launcher_run {R} (f : B → launcher.Call → result R * B) call s :
  (call_launcher f call : Comp R) s =
  let '(r, w) := f (world s) call in (r, [Launch call], with_world s w).
Proof.
  unfold call_launcher. run. by destruct (f (world s) call) as [[a|e] w].
Qed.

(** The shape shared by the remote branches, run from a state of a client
    whose configuration describes [channel]. *)
Lemma remote_call_run {R A} method (rpc : B → Request → result R * B)
    request kwargs (wrap : option JobServiceStub → R → A) s channel :
  _use_job_service feast = true →
  _job_service_stub s = None →
  configured_channel feast = Ok channel →
  (remote_call feast method rpc request kwargs wrap : Comp A) s =
  let first := {| stub_id := objects_created s; stub_channel := channel |} in
  let second :=
    {| stub_id := S (objects_created s); stub_channel := channel |} in
  match rpc (world s) request with
  | (Ok response, w) =>
      (Ok (wrap (Some second) response),
       [CreateChannel channel; Rpc first request kwargs; CreateChannel channel],
       with_new_stub (with_world (with_new_stub s channel) w) channel)
  | (Raise e, w) =>
      (Raise e, [CreateChannel channel; Rpc first request kwargs],
       with_world (with_new_stub s channel) w)
  end.
Proof.
  intros Hmode Hs Hch. unfold remote_call.
  pose proof (job_service_run (DataFrame:=DataFrame) feast s Hs) as H1.
  rewrite Hmode, Hch in H1. cbv beta iota in H1. simpl negb in H1.
  cbv iota in H1.
  rewrite (bind_known _ _ _ _ _ _ H1), bind_run, call_service_run.
  change (world (with_new_stub s channel)) with (world s).
  destruct (rpc (world s) request) as [[response|e] w]; [|done].
  pose proof (job_service_run (DataFrame:=DataFrame) feast
                (with_world (with_new_stub s channel) w) Hs) as H2.
  rewrite Hmode, Hch in H2. simpl negb in H2. cbv iota in H2.
  rewrite (bind_known _ _ _ _ _ _ H2).
  reflexivity.
Qed.

(** X7. In remote mode, on a client whose configuration describes a
    channel, each ingestion method creates a channel and sends one request.
    When the job service fails, the method raises that very error and stops
    there.  When it answers, the method creates a second channel and returns
    a remote handle with the id and log location of the response and the
    name of the table, bound to the second stub, not to the one that sent
    the request; the batch handle holds the start time as a [datetime], the
    stream handle the protobuf timestamp itself. *)
Theorem remote_ingestion_outcome feature_table start end_ extra_jars
    project_arg s channel :
  _use_job_service feast = true →
  _job_service_stub s = None →
  configured_channel feast = Ok channel →
  let first := {| stub_id := objects_created s; stub_channel := channel |} in
  let second :=
    {| stub_id := S (objects_created s); stub_channel := channel |} in
  let batch_request :=
    StartOfflineToOnlineIngestionJobRequest (project feast)
      (ft_name feature_table) (FromDatetime start) (FromDatetime end_) in
  let stream_request :=
    StartStreamToOnlineIngestionJobRequest (project feast)
      (ft_name feature_table) in
  (start_offline_to_online_ingestion env feast feature_table start end_
   : Comp _) s =
  match svc_StartOfflineToOnlineIngestionJob env (world s) batch_request with
  | (Ok response, w) =>
      (Ok (RemoteBatchIngestionJob (Some second) (_extra_grpc_params feast)
             (sj_id response) (ft_name feature_table)
             (as_datetime (ToDatetime (sj_job_start_time response)))
             (sj_log_uri response)),
       [CreateChannel channel; Rpc first batch_request None;
        CreateChannel channel],
       with_new_stub (with_world (with_new_stub s channel) w) channel)
  | (Raise e, w) =>
      (Raise e, [CreateChannel channel; Rpc first batch_request None],
       with_world (with_new_stub s channel) w)
  end ∧
  (start_stream_to_online_ingestion env feast feature_table extra_jars
     project_arg : Comp _) s =
  match svc_StartStreamToOnlineIngestionJob env (world s) stream_request with
  | (Ok response, w) =>
      (Ok (RemoteStreamIngestionJob (Some second) (_extra_grpc_params feast)
             (sj_id response) (ft_name feature_table)
             (as_timestamp (sj_job_start_time response))
             (sj_log_uri response)),
       [CreateChannel channel; Rpc first stream_request None;
        CreateChannel channel],
       with_new_stub (with_world (with_new_stub s channel) w) channel)
  | (Raise e, w) =>
      (Raise e, [CreateChannel channel; Rpc first stream_request None],
       with_world (with_new_stub s channel) w)
  end.
Proof.
  intros Hmode Hs Hch. simpl. split.
  - unfold start_offline_to_online_ingestion. rewrite Hmode. simpl.
    apply (remote_call_run "StartOfflineToOnlineIngestionJob"
             (svc_StartOfflineToOnlineIngestionJob env) _ None
             (λ service response,
                RemoteBatchIngestionJob service (_extra_grpc_params feast)
                  (sj_id response) (ft_name feature_table)
                  (as_datetime (ToDatetime (sj_job_start_time response)))
                  (sj_log_uri response))); done.
  - unfold start_stream_to_online_ingestion. rewrite Hmode. simpl.
    apply (remote_call_run "StartStreamToOnlineIngestionJob"
             (svc_StartStreamToOnlineIngestionJob env) _ None
             (λ service response,
                RemoteStreamIngestionJob service (_extra_grpc_params feast)
                  (sj_id response) (ft_name feature_table)
                  (as_timestamp (sj_job_start_time response))
                  (sj_log_uri response))); done.
Qed.

(** X8. The mode branch of a retrieval, given the staged entity source,
    the output format and the output location.  In remote mode (on a client
    whose configuration describes a channel) it sends the references as the
    caller gave them, not the resolved tables, together with the extra gRPC
    parameters; a failure of the job service is raised as it is; on an
    answer the handle holds the output location the service reports, not
    the one that was sent.  In local mode it calls the launcher once, with
    the resolved tables, and returns what the launcher returns. *)
Theorem retrieval_dispatch_outcome feature_refs feature_tables entity_source
    output_format output_location s channel :
  _job_service_stub s = None →
  (_use_job_service feast = true → configured_channel feast = Ok channel) →
  let first := {| stub_id := objects_created s; stub_channel := channel |} in
  let second :=
    {| stub_id := S (objects_created s); stub_channel := channel |} in
  let request :=
    GetHistoricalFeaturesRequest feature_refs entity_source (project feast)
      output_format output_location in
  let call :=
    launcher.start_historical_feature_retrieval_job (project feast)
      entity_source feature_tables output_format output_location in
  (dispatch_retrieval env feast feature_refs feature_tables entity_source
     output_format output_location : Comp _) s =
  if _use_job_service feast then
    match svc_GetHistoricalFeatures env (world s) request with
    | (Ok response, w) =>
        (Ok (RemoteRetrievalJob (Some second) (_extra_grpc_params feast)
               (ghf_id response) (ghf_output_file_uri response)
               (as_datetime (ToDatetime (ghf_job_start_time response)))
               (ghf_log_uri response)),
         [CreateChannel channel;
          Rpc first request (Some (_extra_grpc_params feast));
          CreateChannel channel],
         with_new_stub (with_world (with_new_stub s channel) w) channel)
    | (Raise e, w) =>
        (Raise e,
         [CreateChannel channel;
          Rpc first request (Some (_extra_grpc_params feast))],
         with_world (with_new_stub s channel) w)
    end
  else
    match launcher_start env (world s) call with
    | (Ok job, w) => (Ok (Local job), [Launch call], with_world s w)
    | (Raise e, w) => (Raise e, [Launch call], with_world s w)
    end.
Proof.
  intros Hs Hch. simpl. unfold dispatch_retrieval.
  destruct (_use_job_service feast) eqn:Hmode.
  - apply (remote_call_run "GetHistoricalFeatures"
             (svc_GetHistoricalFeatures env) _
             (Some (_extra_grpc_params feast))
             (λ service response,
                RemoteRetrievalJob service (_extra_grpc_params feast)
                  (ghf_id response) (ghf_output_file_uri response)
                  (as_datetime (ToDatetime (ghf_job_start_time response)))
                  (ghf_log_uri response))); auto.
  - rewrite bind_run, call_launcher_run.
    by destruct (launcher_start env (world s) _) as [[job|e] w].
Qed.

(** X9. [get_job_by_id] in remote mode, on a client whose configuration
    describes a channel: one channel, one [GetJob] request carrying the id;
    any failure of the job service is raised as it is, with no handle and no
    second channel; on an answer a second channel is created and the handle
    is built from the descriptor on the second stub. *)
Theorem remote_get_job_by_id_outcome job_id s channel :
  _use_job_service feast = true →
  _job_service_stub s = None →
  configured_channel feast = Ok channel →
  let first := {| stub_id := objects_created s; stub_channel := channel |} in
  let second :=
    {| stub_id := S (objects_created s); stub_channel := channel |} in
  (get_job_by_id env feast job_id : Comp _) s =
  match svc_GetJob env (world s) (GetJobRequest job_id) with
  | (Ok job, w) =>
      (Ok (get_remote_job_from_proto (Some second) (_extra_grpc_params feast)
             job),
       [CreateChannel channel; Rpc first (GetJobRequest job_id) None;
        CreateChannel channel],
       with_new_stub (with_world (with_new_stub s channel) w) channel)
  | (Raise e, w) =>
      (Raise e, [CreateChannel channel; Rpc first (GetJobRequest job_id) None],
       with_world (with_new_stub s channel) w)
  end.
Proof.
  intros Hmode Hs Hch. simpl. unfold get_job_by_id. rewrite Hmode. simpl.
  apply (remote_call_run "GetJob" (svc_GetJob env) _ None
           (λ service response,
              get_remote_job_from_proto service (_extra_grpc_params feast)
                response)); done.
Qed.

Lemma remote_jobs_from_protos_run jobs channel :
  _use_job_service feast = true →
  configured_channel feast = Ok channel →
  ∀ s, _job_service_stub s = None →
  (remote_jobs_from_protos (LocalJob:=LocalJob) feast jobs : Comp _) s =
  (Ok (handles_from channel (_extra_grpc_params feast) (objects_created s)
         jobs),
   replicate (List.length jobs) (CreateChannel channel),
   with_new_stubs (List.length jobs) s channel).
Proof.
  intros Hmode Hch. induction jobs as [|job jobs IH]; intros s Hs; [done|].
  simpl remote_jobs_from_protos.
  pose proof (job_service_run (DataFrame:=DataFrame) feast s Hs) as H1.
  rewrite Hmode, Hch in H1. simpl negb in H1. cbv iota in H1.
  rewrite (bind_known _ _ _ _ _ _ H1).
  rewrite (bind_known _ _ _ _ _ _ (IH (with_new_stub s channel) Hs)).
  simpl. by rewrite app_nil_r.
Qed.

(** X10. [list_jobs] in remote mode, on a client whose configuration
    describes a channel.  A failure of the job service is raised as it is.
    On an answer with [n] descriptors the method returns [n] handles, in
    the order of the answer, and has created [n + 1] channels: one for the
    request and one more for every handle, each handle on a stub of its
    own. *)
Theorem remote_list_jobs_outcome include_terminated table_name s channel :
  _use_job_service feast = true →
  _job_service_stub s = None →
  configured_channel feast = Ok channel →
  let first := {| stub_id := objects_created s; stub_channel := channel |} in
  let request := ListJobsRequest include_terminated table_name in
  (list_jobs env feast include_terminated table_name : Comp _) s =
  match svc_ListJobs env (world s) request with
  | (Ok jobs, w) =>
      (Ok (handles_from channel (_extra_grpc_params feast)
             (S (objects_created s)) jobs),
       [CreateChannel channel; Rpc first request None] ++
       replicate (List.length jobs) (CreateChannel channel),
       with_new_stubs (List.length jobs)
         (with_world (with_new_stub s channel) w) channel)
  | (Raise e, w) =>
      (Raise e, [CreateChannel channel; Rpc first request None],
       with_world (with_new_stub s channel) w)
  end.
Proof.
  intros Hmode Hs Hch. simpl. unfold list_jobs. rewrite Hmode. cbn [negb].
  cbv beta iota zeta.
  pose proof (job_service_run (DataFrame:=DataFrame) feast s Hs) as H1.
  rewrite Hmode, Hch in H1. simpl negb in H1. cbv iota in H1.
  rewrite (bind_known _ _ _ _ _ _ H1), bind_run, call_service_run.
  change (world (with_new_stub s channel)) with (world s).
  destruct (svc_ListJobs env (world s) _) as [[jobs|e] w]; [|done].
  rewrite (remote_jobs_from_protos_run jobs channel Hmode Hch
             (with_world (with_new_stub s channel) w) Hs).
  reflexivity.
Qed.

Lemma handles_from_length channel params n jobs :
  List.length (handles_from (LocalJob:=LocalJob) channel params n jobs)
  = List.length jobs.
Proof.
  revert n. induction jobs as [|job jobs IH]; intros n; simpl; [done|].
  by rewrite IH.
Qed.

(** X11. In local mode the four job methods are a pass-through: each makes
    exactly one call of the launcher, with the arguments it was given (the
    window of a batch ingestion as the [datetime]s themselves), returns the
    launcher's handles, or raises the launcher's error as it is, and leaves
    the attributes of the client untouched. *)
Theorem local_methods_pass_through feature_table start end_ extra_jars
    project_arg include_terminated table_name job_id s :
  _use_job_service feast = false →
  let wrap {R A} (call : launcher.Call) (f : R → A)
        (answer : result R * B) :=
    match answer with
    | (Ok r, w) => (Ok (f r), [Launch call], with_world s w)
    | (Raise e, w) =>
        (Raise e, [Launch (DataFrame:=DataFrame) call], with_world s w)
    end in
  (start_offline_to_online_ingestion env feast feature_table start end_
   : Comp _) s =
    (let call := launcher.start_offline_to_online_ingestion (project feast)
                   feature_table start end_ in
     wrap call Local (launcher_start env (world s) call)) ∧
  (start_stream_to_online_ingestion env feast feature_table extra_jars
     project_arg : Comp _) s =
    (let call := launcher.start_stream_to_online_ingestion
                   (Py.or_else project_arg (project feast)) feature_table
                   (Py.list_or extra_jars []) in
     wrap call Local (launcher_start env (world s) call)) ∧
  (list_jobs env feast include_terminated table_name : Comp _) s =
    (let call := launcher.list_jobs include_terminated table_name in
     wrap call (map Local) (launcher_list_jobs env (world s) call)) ∧
  (get_job_by_id env feast job_id : Comp _) s =
    (let call := launcher.get_job_by_id job_id in
     wrap call Local (launcher_get_job_by_id env (world s) call)).
Proof.
  intros Hmode. simpl.
  unfold start_offline_to_online_ingestion, start_stream_to_online_ingestion,
    list_jobs, get_job_by_id.
  rewrite Hmode. cbn [negb]. cbv beta iota zeta.
  split_and!; rewrite bind_run, call_launcher_run.
  - by destruct (launcher_start env (world s) _) as [[job|e] w].
  - by destruct (launcher_start env (world s) _) as [[job|e] w].
  - by destruct (launcher_list_jobs env (world s) _) as [[job|e] w].
  - by destruct (launcher_get_job_by_id env (world s) _) as [[job|e] w].
Qed.

(** X12. In remote mode, when the configuration does not describe a
    channel (an option the property reads is missing or does not parse),
    each of the four job methods raises the configuration's error before
    anything else happens: no channel is created, no request is sent, the
    state is as before. *)
Theorem unconfigured_channel_fails_before_any_request feature_table start
    end_ extra_jars project_arg include_terminated table_name job_id s e :
  _use_job_service feast = true →
  _job_service_stub s = None →
  configured_channel feast = Raise e →
  (start_offline_to_online_ingestion env feast feature_table start end_
   : Comp _) s = (Raise e, [], s) ∧
  (start_stream_to_online_ingestion env feast feature_table extra_jars
     project_arg : Comp _) s = (Raise e, [], s) ∧
  (list_jobs env feast include_terminated table_name : Comp _) s
    = (Raise e, [], s) ∧
  (get_job_by_id env feast job_id : Comp _) s = (Raise e, [], s).
Proof.
  intros Hmode Hs Hch.
  pose proof (job_service_run (DataFrame:=DataFrame) feast s Hs) as H1.
  rewrite Hmode, Hch in H1. simpl negb in H1. cbv iota in H1.
  unfold start_offline_to_online_ingestion, start_stream_to_online_ingestion,
    list_jobs, get_job_by_id.
  rewrite Hmode. cbn [negb]. cbv beta iota zeta.
  split_and!; by rewrite bind_run, H1.
Qed.

End Branch_outcomes.

(** ** More on retrieval *)

Section Retrieval_errors.
Context {DataFrame LocalJob B : Type}.
Variable env : Collaborators (DataFrame:=DataFrame) (LocalJob:=LocalJob) (B:=B).
Variable feast : FeastClient.
Implicit Types s : State (B:=B).
Local Abbreviation Comp := (M (DataFrame:=DataFrame) (B:=B)).

(** X13. An output location given by the caller is used as it is: every
    submission the call makes carries exactly that location, no identifier
    is drawn, and the base-location option is not read (the call does not
    need it to be set). *)
Theorem explicit_output_location_is_used_verbatim
    feature_refs entity_source (location : string) s :
  let o := (get_historical_features env feast feature_refs entity_source
              (Some location) : Comp _) s in
  Forall (λ e, ∀ l, output_location_of e = Some l → l = location) (trace o) ∧
  uuids_drawn (final o) = uuids_drawn s.
Proof.
  simpl. unfold get_historical_features.
  destruct (_get_feature_tables_from_feature_refs _ _ _) as [fts|e];
    [|by split; [constructor|]].
  rewrite bind_lift_ok.
  destruct (forallb _ fts); [|by split; [constructor|]].
  rewrite bind_assert_true. simpl compute_output_location. rewrite bind_ret.
  unfold config.
  destruct (cfg_get (_config feast) HISTORICAL_FEATURE_OUTPUT_FORMAT)
    as [fmt|e]; [|by split; [constructor|]].
  rewrite bind_lift_ok. split.
  - apply only_bind.
    + apply only_stage_entity_source; intros; simpl in *; congruence.
    + intros es'. apply only_dispatch_retrieval; intros; simpl in *;
        congruence.
  - apply (keeps_bind uuids_drawn).
    + apply keeps_stage_entity_source, uuids_drawn_ignores_rest.
    + intros es'. apply keeps_dispatch_retrieval, uuids_drawn_ignores_rest.
Qed.

(** X14. Without an output location from the caller and without the
    base-location option, a call whose tables resolve and pass the
    created-timestamp check raises the configuration's error at once:
    nothing is staged, nothing is submitted, no identifier is drawn. *)
Theorem missing_output_location_option_fails_before_any_effect
    feature_refs entity_source s feature_tables e :
  _get_feature_tables_from_feature_refs (get_feature_table feast)
    feature_refs (project feast) = Ok feature_tables →
  forallb (λ ft, Py.truthy_opt (created_timestamp_column (ft_batch_source ft)))
          feature_tables = true →
  cfg_get (_config feast) HISTORICAL_FEATURE_OUTPUT_LOCATION = Raise e →
  (get_historical_features env feast feature_refs entity_source None
   : Comp _) s = (Raise e, [], s).
Proof.
  intros Hres Hall He. unfold get_historical_features.
  rewrite Hres, bind_lift_ok, Hall, bind_assert_true, bind_run.
  rewrite compute_output_location_run, He. reflexivity.
Qed.

(** X15. When the output-format option is missing, a call that got as far
    as reading it raises the configuration's error with no event: nothing
    is staged or submitted.  The identifier for the output location was
    drawn before, so without a location from the caller one identifier is
    used up. *)
Theorem missing_output_format_option_fails_before_staging
    feature_refs entity_source output_location s feature_tables e :
  _get_feature_tables_from_feature_refs (get_feature_table feast)
    feature_refs (project feast) = Ok feature_tables →
  forallb (λ ft, Py.truthy_opt (created_timestamp_column (ft_batch_source ft)))
          feature_tables = true →
  (output_location = None →
   ∃ base, cfg_get (_config feast) HISTORICAL_FEATURE_OUTPUT_LOCATION = Ok base) →
  cfg_get (_config feast) HISTORICAL_FEATURE_OUTPUT_FORMAT = Raise e →
  (get_historical_features env feast feature_refs entity_source
     output_location : Comp _) s =
  (Raise e, [],
   match output_location with Some _ => s | None => with_uuid_drawn s end).
Proof.
  intros Hres Hall Hout He. unfold get_historical_features.
  rewrite Hres, bind_lift_ok, Hall, bind_assert_true.
  destruct output_location as [l|].
  - simpl compute_output_location. rewrite bind_ret. unfold config.
    by rewrite He.
  - destruct Hout as [base Hbase]; [done|].
    pose proof (compute_output_location_run env feast None s) as Hc.
    cbv beta iota in Hc. rewrite Hbase in Hc.
    rewrite (bind_silent _ _ _ _ _ Hc). unfold config. by rewrite He.
Qed.

(** The staging step asks nothing of the state but the outside world. *)
Lemma stage_entity_source_same_world es sources s s' :
  world s = world s' →
  value ((stage_entity_source env feast es sources : Comp _) s)
    = value ((stage_entity_source env feast es sources : Comp _) s') ∧
  trace ((stage_entity_source env feast es sources : Comp _) s)
    = trace ((stage_entity_source env feast es sources : Comp _) s').
Proof.
  intros Hw. unfold stage_entity_source. destruct es as [df|source]; [|done].
  destruct (existsb _ _).
  - destruct (filter _ _) as [|[ec cc ff fu|ec cc r] rest]; [done..|].
    rewrite !value_bind, !trace_bind. unfold lift.
    destruct (table_reference_from_string env r) as [ref|e]; [|done].
    outcome. run. rewrite Hw.
    by destruct (stage_entities_to_bq env (world s') df _ _) as [[a|e] w].
  - rewrite !value_bind, !trace_bind. unfold lift, config.
    destruct (cfg_get (_config feast) SPARK_STAGING_LOCATION) as [loc|e];
      [|done].
    outcome. run. rewrite Hw.
    by destruct (stage_entities_to_fs env (world s') df _ _) as [[a|e] w].
Qed.

Lemma compute_output_location_keeps_world out s :
  world (final ((compute_output_location env feast out : Comp _) s)) = world s.
Proof.
  rewrite compute_output_location_run. destruct out; [done|].
  by destruct (cfg_get _ _).
Qed.

(** X16. When staging the entity table fails (the table reference does not
    parse, the staging location is not configured, or the upload itself
    raises), a call that got as far as staging raises that error and stops:
    its events are those of the staging step alone, so no channel is
    created and neither the job service nor the launcher is called. *)
Theorem staging_failure_stops_the_call
    feature_refs entity_source output_location s feature_tables e :
  reaches_staging feast feature_refs output_location feature_tables →
  value ((stage_entity_source env feast entity_source
            (map ft_batch_source feature_tables) : Comp _) s) = Raise e →
  let o := (get_historical_features env feast feature_refs entity_source
              output_location : Comp _) s in
  value o = Raise e ∧
  trace o = trace ((stage_entity_source env feast entity_source
                      (map ft_batch_source feature_tables) : Comp _) s) ∧
  Forall (λ ev, is_staging ev = true) (trace o).
Proof.
  intros (Hres & Hall & Hout & fmt & Hfmt) Hstage. simpl.
  unfold get_historical_features.
  rewrite Hres, bind_lift_ok, Hall, bind_assert_true.
  assert (∃ out' s1,
    (compute_output_location env feast output_location : Comp _) s
    = (Ok out', [], s1) ∧ world s1 = world s) as (out' & s1 & Hc & Hw).
  { pose proof (compute_output_location_keeps_world output_location s) as Hw.
    rewrite compute_output_location_run in *.
    destruct output_location as [l|]; [by eauto|].
    destruct Hout as [base Hbase]; [done|]. rewrite Hbase in *. by eauto. }
  rewrite (bind_silent _ _ _ _ _ Hc). unfold config.
  rewrite Hfmt, bind_lift_ok.
  destruct (stage_entity_source_same_world entity_source
              (map ft_batch_source feature_tables) s1 s Hw) as [Hv Ht].
  rewrite value_bind, trace_bind, Hv, Ht, Hstage, app_nil_r.
  split_and!; [done..|].
  apply (only_stage_entity_source env feast (λ ev, is_staging ev = true));
    done.
Qed.

End Retrieval_errors.

(** ** Mode selection *)

Section Mode_selection.
Context {DataFrame LocalJob B : Type}.
Variable env : Collaborators (DataFrame:=DataFrame) (LocalJob:=LocalJob) (B:=B).
Variable feast : FeastClient.
Implicit Types s : State (B:=B).
Local Abbreviation Comp := (M (DataFrame:=DataFrame) (B:=B)).

(** A launcher call whose result is only wrapped: the call is the one
    event, whether the launcher returns or raises. *)
Lemma local_call_trace {R A} (f : B → launcher.Call → result R * B) call
    (wrap : R → A) s :
  trace ((call_launcher (DataFrame:=DataFrame) f call ≫=
            λ r, mret (wrap r)) s)
  = [Launch call].
Proof.
  rewrite (trace_bind (call_launcher f call)), call_launcher_run.
  by destruct (f (world s) call) as [[r|e] w]; outcome.
Qed.

(** The start of every remote branch: once the stub is built the request
    is sent, whatever the job service answers and whatever follows. *)
Lemma requested_after_stub {R A} method (rpc : B → Request → result R * B)
    request kwargs (k : R → Comp A) s channel :
  _use_job_service feast = true →
  _job_service_stub s = None →
  configured_channel feast = Ok channel →
  requested request kwargs
    ((_job_service (DataFrame:=DataFrame) feast ≫= λ service,
        call_service service method rpc request kwargs ≫= k) s).
Proof.
  intros Hmode Hs Hch. unfold requested.
  pose proof (job_service_run (DataFrame:=DataFrame) feast s Hs) as H1.
  rewrite Hmode, Hch in H1. simpl negb in H1. cbv iota in H1.
  rewrite (bind_known _ _ _ _ _ _ H1), bind_run, call_service_run.
  change (world (with_new_stub s channel)) with (world s).
  destruct (rpc (world s) request) as [[r|e] w].
  - destruct (k r _) as [[r' t'] s']. outcome.
    apply Exists_cons_tl, Exists_cons_hd. eauto.
  - outcome. apply Exists_cons_tl, Exists_cons_hd. eauto.
Qed.

(** A retrieval call that gets through staging arrives at the mode branch
    with the staged source, the configured format and the computed output
    location, in a state whose [_job_service_stub] is untouched. *)
Lemma retrieval_reaches_dispatch feature_refs entity_source output_location
    feature_tables source s :
  reaches_staging feast feature_refs output_location feature_tables →
  value ((stage_entity_source env feast entity_source
            (map ft_batch_source feature_tables) : Comp _) s) = Ok source →
  ∃ format location s2,
    cfg_get (_config feast) HISTORICAL_FEATURE_OUTPUT_FORMAT = Ok format ∧
    value ((compute_output_location env feast output_location : Comp _) s)
      = Ok location ∧
    _job_service_stub s2 = _job_service_stub s ∧
    trace ((get_historical_features env feast feature_refs entity_source
              output_location : Comp _) s)
    = trace ((stage_entity_source env feast entity_source
                (map ft_batch_source feature_tables) : Comp _) s) ++
      trace ((dispatch_retrieval env feast feature_refs feature_tables
                source format location : Comp _) s2).
Proof.
  intros (Hres & Hall & Hout & fmt & Hfmt) Hstage.
  assert (∃ out' s1,
    (compute_output_location env feast output_location : Comp _) s
    = (Ok out', [], s1) ∧ world s1 = world s ∧
    _job_service_stub s1 = _job_service_stub s) as (out' & s1 & Hc & Hw & Hst).
  { pose proof (compute_output_location_keeps_world env feast
                  output_location s) as Hw.
    pose proof (keeps_stub_compute_output_location env feast
                  output_location s) as Hst.
    rewrite compute_output_location_run in *.
    destruct output_location as [l|]; [by eauto|].
    destruct Hout as [base Hbase]; [done|]. rewrite Hbase in *. by eauto. }
  destruct (stage_entity_source_same_world env feast entity_source
              (map ft_batch_source feature_tables) s1 s Hw) as [Hv Ht].
  exists fmt, out',
    (final ((stage_entity_source env feast entity_source
               (map ft_batch_source feature_tables) : Comp _) s1)).
  split_and!; [done|by rewrite Hc| |].
  - rewrite <- Hst.
    apply (keeps_stage_entity_source env feast _ (stub_ignores_rest (B:=B))).
  - unfold get_historical_features.
    rewrite Hres, bind_lift_ok, Hall, bind_assert_true.
    rewrite (bind_silent _ _ _ _ _ Hc). unfold config.
    rewrite Hfmt, bind_lift_ok.
    by rewrite trace_bind, Hv, Ht, Hstage.
Qed.

(** C4. Each of the five operations goes the way the job-service URL
    says, and nothing else decides it.  [_use_job_service] is the
    configuration's answer to whether the URL option is set.  With the URL
    set an operation never calls the launcher and, when it returns, has
    called the job service; without it the operation never creates a
    channel or calls the job service and, when it returns, has called the
    launcher.
    The selected path is taken.  Without the URL, in every state and for
    every argument, the launcher call is the one event of an ingestion, a
    listing or a lookup, whether the launcher returns or raises, and a
    retrieval that gets through staging causes the staging events and then
    that one launcher call, with the staged source, the resolved tables,
    the configured format and the computed output location.  With the URL
    set, in every state in which [_job_service_stub] is [None] and on a
    configuration that describes a channel, each operation sends its
    request to the job service, whether or not the service answers; a
    retrieval does so once it is through staging. *)
Theorem dispatch_follows_job_service_url :
  _use_job_service feast = cfg_exists (_config feast) JOB_SERVICE_URL ∧
  (∀ feature_refs entity_source output_location,
     follows_mode feast
       (get_historical_features env feast feature_refs entity_source
          output_location : Comp _)) ∧
  (∀ feature_table start end_,
     follows_mode feast
       (start_offline_to_online_ingestion env feast feature_table start end_
        : Comp _)) ∧
  (∀ feature_table extra_jars project_arg,
     follows_mode feast
       (start_stream_to_online_ingestion env feast feature_table extra_jars
          project_arg : Comp _)) ∧
  (∀ include_terminated table_name,
     follows_mode feast
       (list_jobs env feast include_terminated table_name : Comp _)) ∧
  (∀ job_id, follows_mode feast (get_job_by_id env feast job_id : Comp _)) ∧
  (_use_job_service feast = false → ∀ s,
     (∀ feature_table start end_,
        trace ((start_offline_to_online_ingestion env feast feature_table
                  start end_ : Comp _) s)
        = [Launch (launcher.start_offline_to_online_ingestion
                     (project feast) feature_table start end_)]) ∧
     (∀ feature_table extra_jars project_arg,
        trace ((start_stream_to_online_ingestion env feast feature_table
                  extra_jars project_arg : Comp _) s)
        = [Launch (launcher.start_stream_to_online_ingestion
                     (Py.or_else project_arg (project feast)) feature_table
                     (Py.list_or extra_jars []))]) ∧
     (∀ include_terminated table_name,
        trace ((list_jobs env feast include_terminated table_name : Comp _) s)
        = [Launch (launcher.list_jobs include_terminated table_name)]) ∧
     (∀ job_id,
        trace ((get_job_by_id env feast job_id : Comp _) s)
        = [Launch (launcher.get_job_by_id job_id)]) ∧
     (∀ feature_refs entity_source output_location feature_tables source,
        reaches_staging feast feature_refs output_location feature_tables →
        value ((stage_entity_source env feast entity_source
                  (map ft_batch_source feature_tables) : Comp _) s)
          = Ok source →
        ∃ format location,
          cfg_get (_config feast) HISTORICAL_FEATURE_OUTPUT_FORMAT
            = Ok format ∧
          value ((compute_output_location env feast output_location
                  : Comp _) s) = Ok location ∧
          trace ((get_historical_features env feast feature_refs
                    entity_source output_location : Comp _) s)
          = trace ((stage_entity_source env feast entity_source
                      (map ft_batch_source feature_tables) : Comp _) s) ++
            [Launch (launcher.start_historical_feature_retrieval_job
                       (project feast) source feature_tables format
                       location)])) ∧
  (_use_job_service feast = true → ∀ s channel,
     _job_service_stub s = None →
     configured_channel feast = Ok channel →
     (∀ feature_table start end_,
        requested
          (StartOfflineToOnlineIngestionJobRequest (project feast)
             (ft_name feature_table) (FromDatetime start) (FromDatetime end_))
          None
          ((start_offline_to_online_ingestion env feast feature_table
              start end_ : Comp _) s)) ∧
     (∀ feature_table extra_jars project_arg,
        requested
          (StartStreamToOnlineIngestionJobRequest (project feast)
             (ft_name feature_table))
          None
          ((start_stream_to_online_ingestion env feast feature_table
              extra_jars project_arg : Comp _) s)) ∧
     (∀ include_terminated table_name,
        requested (ListJobsRequest include_terminated table_name) None
          ((list_jobs env feast include_terminated table_name : Comp _) s)) ∧
     (∀ job_id,
        requested (GetJobRequest job_id) None
          ((get_job_by_id env feast job_id : Comp _) s)) ∧
     (∀ feature_refs entity_source output_location feature_tables source,
        reaches_staging feast feature_refs output_location feature_tables →
        value ((stage_entity_source env feast entity_source
                  (map ft_batch_source feature_tables) : Comp _) s)
          = Ok source →
        ∃ format location,
          cfg_get (_config feast) HISTORICAL_FEATURE_OUTPUT_FORMAT
            = Ok format ∧
          value ((compute_output_location env feast output_location
                  : Comp _) s) = Ok location ∧
          requested
            (GetHistoricalFeaturesRequest feature_refs source (project feast)
               format location)
            (Some (_extra_grpc_params feast))
            ((get_historical_features env feast feature_refs entity_source
                output_location : Comp _) s))).
Proof.
  destruct (methods_follow_mode env feast) as (H0 & H1 & H2 & H3 & H4 & H5).
  split_and!; [done..| |].
  - intros Hmode s. split_and!; intros.
    + unfold start_offline_to_online_ingestion. rewrite Hmode. simpl.
      apply local_call_trace.
    + unfold start_stream_to_online_ingestion. rewrite Hmode. simpl.
      apply local_call_trace.
    + unfold list_jobs. rewrite Hmode. simpl.
      apply (local_call_trace (launcher_list_jobs env) _ (map Local)).
    + unfold get_job_by_id. rewrite Hmode. simpl. apply local_call_trace.
    + destruct (retrieval_reaches_dispatch feature_refs entity_source
                  output_location feature_tables source s)
        as (fmt & loc & s2 & Hfmt & Hloc & _ & Ht); [done..|].
      exists fmt, loc. split_and!; [done..|]. rewrite Ht. f_equal.
      unfold dispatch_retrieval. rewrite Hmode. apply local_call_trace.
  - intros Hmode s channel Hs Hch. split_and!; intros.
    + unfold start_offline_to_online_ingestion. rewrite Hmode. simpl.
      by eapply requested_after_stub.
    + unfold start_stream_to_online_ingestion. rewrite Hmode. simpl.
      by eapply requested_after_stub.
    + unfold list_jobs. rewrite Hmode. simpl.
      by eapply requested_after_stub.
    + unfold get_job_by_id. rewrite Hmode. simpl.
      by eapply requested_after_stub.
    + destruct (retrieval_reaches_dispatch feature_refs entity_source
                  output_location feature_tables source s)
        as (fmt & loc & s2 & Hfmt & Hloc & Hs2 & Ht); [done..|].
      exists fmt, loc. split_and!; [done..|].
      unfold requested. rewrite Ht. apply Exists_app. right.
      unfold dispatch_retrieval. rewrite Hmode.
      eapply (requested_after_stub "GetHistoricalFeatures");
        [done|by rewrite Hs2|exact Hch].
Qed.

End Mode_selection.

(** ** The session variant *)

(** X17. [get_historical_features_df] asks nothing but the registry before
    it calls the session launcher, and does not check the created-timestamp
    column.  When every run of the request is found, the launcher gets one
    pruned table per run and its answer is returned as it is.  When a run is
    not found, the method raises the registry's error for the first such
    run and the launcher is not reached: the outside state is as before. *)
Theorem get_historical_features_df_outcome {B SparkFrame : Type}
    (session : B → option string → DataSource → list FeatureTable
               → result SparkFrame * B)
    (feast : FeastClient) (feature_refs : list string)
    (entity_source : DataSource) (w : B) :
  let runs := Py.groupby table_of_ref feature_refs in
  let o := get_historical_features_df session feast feature_refs
             entity_source w in
  (∃ feature_tables,
     Forall2 (λ run ft, ∃ t, get_feature_table feast run.1 (project feast)
                               = Ok t ∧ pruned_to t run.2 ft)
             runs feature_tables ∧
     o = session w (project feast) entity_source feature_tables) ∨
  (∃ (i : nat) (run : string * list string) (e : exn),
     runs !! i = Some run ∧
     get_feature_table feast run.1 (project feast) = Raise e ∧
     (∀ (j : nat) (earlier : string * list string),
        j < i → runs !! j = Some earlier →
        ∃ t, get_feature_table feast earlier.1 (project feast) = Ok t) ∧
     o = (Raise e, w)).
Proof.
  simpl. unfold get_historical_features_df.
  pose proof (resolver_runs_pruned (get_feature_table feast) feature_refs
                (project feast)) as [_ HF].
  destruct (_get_feature_tables_from_feature_refs _ _ _) as [fts|e] eqn:Hres.
  - left. by exists fts.
  - right.
    apply resolve_groups_first_failure in Hres as (i & run & Hi & Hrun & Hb).
    by exists i, run, e.
Qed.

(** ** The further properties at the fixtures *)

Section More_witnesses.
Import Fixture.

Lemma reference_round_trip_witness :
  table_of_ref "bookings:bookings_7d" = "bookings" ∧
  feature_of_ref "bookings:bookings_7d" = "bookings_7d".
Proof.
  apply (reference_round_trip "bookings" "bookings_7d"); reflexivity.
Defined.

Lemma reference_without_colon_witness :
  table_of_ref "bookings" = "bookings" ∧ feature_of_ref "bookings" = "bookings".
Proof. apply (reference_without_colon "bookings"); reflexivity. Defined.

Lemma reference_middle_witness :
  table_of_ref "bookings:v2:bookings_7d" = table_of_ref "bookings:bookings_7d" ∧
  feature_of_ref "bookings:v2:bookings_7d"
    = feature_of_ref "bookings:bookings_7d".
Proof.
  apply (reference_middle_is_ignored "bookings" "v2" "bookings_7d");
    reflexivity.
Defined.

Lemma single_table_request_witness :
  _get_feature_tables_from_feature_refs registry
    ["bookings:bookings_7d"; "bookings:bookings_14d"] (Some "proj1")
  = _get_feature_tables_from_feature_refs registry
      ["bookings:bookings_14d"; "bookings:unknown"; "bookings:bookings_7d";
       "bookings:bookings_7d"] (Some "proj1") ∧
  _get_feature_tables_from_feature_refs registry
    ["bookings:bookings_7d"; "bookings:bookings_14d"] (Some "proj1")
  = Ok [set_features bookings
          (filter (λ f, feature_name f ∈
                          map feature_of_ref
                            ["bookings:bookings_7d"; "bookings:bookings_14d"])
                  (ft_features bookings))].
Proof.
  apply (single_table_request_depends_on_declared_names registry
           (Some "proj1") "bookings").
  - discriminate.
  - discriminate.
  - repeat constructor.
  - repeat constructor.
  - reflexivity.
  - apply Forall_forall. apply (bool_decide_unpack _). vm_compute. exact I.
Defined.

Lemma resolver_result_size_witness :
  List.length
    [set_features bookings [mkFeature "bookings_7d" "INT64"];
     set_features driver [mkFeature "conv_rate" "FLOAT"];
     set_features bookings [mkFeature "bookings_14d" "INT64"]]
    = List.length (Py.groupby table_of_ref scattered_refs) ∧
  List.length
    [set_features bookings [mkFeature "bookings_7d" "INT64"];
     set_features driver [mkFeature "conv_rate" "FLOAT"];
     set_features bookings [mkFeature "bookings_14d" "INT64"]]
    ≤ List.length scattered_refs ∧
  ([set_features bookings [mkFeature "bookings_7d" "INT64"];
    set_features driver [mkFeature "conv_rate" "FLOAT"];
    set_features bookings [mkFeature "bookings_14d" "INT64"]] = [] ↔
   scattered_refs = []).
Proof.
  apply (resolver_result_size registry scattered_refs (Some "proj1")).
  vm_compute. reflexivity.
Defined.

Lemma remote_ingestion_witness :
  trace (start_offline_to_online_ingestion collaborators (feast_client true)
           driver 1600000000000000%Z 1600086400000000%Z fresh)
  = [CreateChannel channel;
     Rpc (mkStub 0 channel)
       (StartOfflineToOnlineIngestionJobRequest (Some "proj1") "driver"
          (mkTimestamp 1600000000 0) (mkTimestamp 1600086400 0)) None;
     CreateChannel channel] ∧
  start_stream_to_online_ingestion Failing.collaborators (feast_client true)
    driver None None fresh
  = (Raise (RpcError "unavailable"),
     [CreateChannel channel;
      Rpc (mkStub 0 channel)
        (StartStreamToOnlineIngestionJobRequest (Some "proj1") "driver") None],
     with_world (with_new_stub fresh channel) (world fresh)).
Proof.
  split.
  - rewrite (proj1 (remote_ingestion_outcome collaborators (feast_client true)
                      driver 1600000000000000%Z 1600086400000000%Z None None
                      fresh channel eq_refl eq_refl eq_refl)).
    reflexivity.
  - rewrite (proj2 (remote_ingestion_outcome Failing.collaborators
                      (feast_client true) driver 0%Z 0%Z None None
                      fresh channel eq_refl eq_refl eq_refl)).
    reflexivity.
Defined.

Lemma retrieval_dispatch_witness :
  value (dispatch_retrieval Failing.collaborators (feast_client true)
           mixed_refs mixed_tables driver_source "parquet" "gs://out/x" fresh)
  = Raise (RpcError "unavailable") ∧
  trace (dispatch_retrieval collaborators (feast_client false)
           mixed_refs mixed_tables driver_source "parquet" "gs://out/x" fresh)
  = [Launch (launcher.start_historical_feature_retrieval_job (Some "proj1")
               driver_source mixed_tables "parquet" "gs://out/x")].
Proof.
  split.
  - rewrite (retrieval_dispatch_outcome Failing.collaborators
               (feast_client true) mixed_refs mixed_tables driver_source
               "parquet" "gs://out/x" fresh channel eq_refl (λ _, eq_refl)).
    reflexivity.
  - rewrite (retrieval_dispatch_outcome collaborators
               (feast_client false) mixed_refs mixed_tables driver_source
               "parquet" "gs://out/x" fresh channel eq_refl).
    + reflexivity.
    + intros H. vm_compute in H. discriminate H.
Defined.

Lemma remote_get_job_by_id_witness :
  value (get_job_by_id collaborators (feast_client true) (job_id known_job)
           fresh)
  = Ok (RemoteBatchIngestionJob (Some (mkStub 1 channel)) [("timeout", "10")]
          (job_id known_job) "driver" (as_datetime 1600000000000000%Z)
          "gs://logs").
Proof.
  rewrite (remote_get_job_by_id_outcome collaborators (feast_client true)
             (job_id known_job) fresh channel eq_refl eq_refl eq_refl).
  vm_compute. reflexivity.
Defined.

Lemma remote_list_jobs_witness :
  trace (list_jobs collaborators (feast_client true) true None fresh)
  = [CreateChannel channel; Rpc (mkStub 0 channel) (ListJobsRequest true None)
                              None; CreateChannel channel].
Proof.
  rewrite (remote_list_jobs_outcome collaborators (feast_client true) true
             None fresh channel eq_refl eq_refl eq_refl).
  reflexivity.
Defined.

Lemma local_methods_witness :
  trace (start_offline_to_online_ingestion collaborators (feast_client false)
           driver 1600000000000000%Z 1600086400000000%Z fresh)
  = [Launch (launcher.start_offline_to_online_ingestion (Some "proj1") driver
               1600000000000000%Z 1600086400000000%Z)] ∧
  get_job_by_id Failing.collaborators (feast_client false) "job" fresh
  = (Raise (ValueError "launcher"), [Launch (launcher.get_job_by_id "job")],
     with_world fresh (world fresh)).
Proof.
  split.
  - rewrite (proj1 (local_methods_pass_through collaborators
                      (feast_client false) driver 1600000000000000%Z
                      1600086400000000%Z None None true None "job" fresh
                      eq_refl)).
    reflexivity.
  - rewrite (proj2 (proj2 (proj2 (local_methods_pass_through
                      Failing.collaborators (feast_client false) driver 0%Z
                      0%Z None None true None "job" fresh eq_refl)))).
    reflexivity.
Defined.

Lemma unconfigured_channel_witness :
  start_offline_to_online_ingestion collaborators
    (Failing.feast_client true [GRPC_CONNECTION_TIMEOUT]) driver 0%Z 1%Z fresh
    = (Raise (NoOptionError "option"), [], fresh) ∧
  start_stream_to_online_ingestion collaborators
    (Failing.feast_client true [GRPC_CONNECTION_TIMEOUT]) driver None None
    fresh = (Raise (NoOptionError "option"), [], fresh) ∧
  list_jobs collaborators
    (Failing.feast_client true [GRPC_CONNECTION_TIMEOUT]) true None fresh
    = (Raise (NoOptionError "option"), [], fresh) ∧
  get_job_by_id collaborators
    (Failing.feast_client true [GRPC_CONNECTION_TIMEOUT]) "job" fresh
    = (Raise (NoOptionError "option"), [], fresh).
Proof.
  apply (unconfigured_channel_fails_before_any_request collaborators
           (Failing.feast_client true [GRPC_CONNECTION_TIMEOUT]));
    reflexivity.
Defined.

Lemma missing_output_location_witness :
  get_historical_features collaborators
    (Failing.feast_client false [HISTORICAL_FEATURE_OUTPUT_LOCATION])
    mixed_refs (InMemory entities) None fresh
  = (Raise (NoOptionError "option"), [], fresh).
Proof.
  apply (missing_output_location_option_fails_before_any_effect collaborators
           (Failing.feast_client false [HISTORICAL_FEATURE_OUTPUT_LOCATION])
           mixed_refs (InMemory entities) fresh mixed_tables).
  - vm_compute. reflexivity.
  - reflexivity.
  - reflexivity.
Defined.

Lemma missing_output_format_witness :
  get_historical_features collaborators
    (Failing.feast_client false [HISTORICAL_FEATURE_OUTPUT_FORMAT])
    mixed_refs (InMemory entities) None fresh
  = (Raise (NoOptionError "option"), [], with_uuid_drawn fresh).
Proof.
  apply (missing_output_format_option_fails_before_staging collaborators
           (Failing.feast_client false [HISTORICAL_FEATURE_OUTPUT_FORMAT])
           mixed_refs (InMemory entities) None fresh mixed_tables).
  - vm_compute. reflexivity.
  - reflexivity.
  - intros _. by exists "gs://out".
  - reflexivity.
Defined.

Lemma failing_reaches_staging :
  reaches_staging (feast_client false) mixed_refs None mixed_tables.
Proof.
  split; [vm_compute; reflexivity|]. split; [reflexivity|].
  split; [intros _; by exists "gs://out"|by exists "parquet"].
Defined.

Lemma staging_failure_witness :
  value (get_historical_features Failing.collaborators (feast_client false)
           mixed_refs (InMemory entities) None fresh)
    = Raise (StagingError "bigquery") ∧
  trace (get_historical_features Failing.collaborators (feast_client false)
           mixed_refs (InMemory entities) None fresh)
    = trace (stage_entity_source Failing.collaborators (feast_client false)
               (InMemory entities) (map ft_batch_source mixed_tables) fresh) ∧
  Forall (λ ev, is_staging ev = true)
    (trace (get_historical_features Failing.collaborators (feast_client false)
              mixed_refs (InMemory entities) None fresh)).
Proof.
  apply (staging_failure_stops_the_call Failing.collaborators
           (feast_client false) mixed_refs (InMemory entities) None fresh
           mixed_tables).
  - exact failing_reaches_staging.
  - vm_compute. reflexivity.
Defined.

(** The session variant hands over a table without a created-timestamp
    column, which the job variant refuses. *)
Example session_variant_takes_legacy_table :
  get_historical_features_df Failing.spark_session (feast_client true)
    ["legacy:clicks"] driver_source (world fresh)
  = (Ok ["legacy"], world fresh).
Proof. vm_compute. reflexivity. Qed.

End More_witnesses.

Section Mode_witnesses.
Import Fixture.

Lemma dispatch_follows_job_service_url_witness :
  (trace (list_jobs collaborators (feast_client false) true None fresh)
   = [Launch (launcher.list_jobs true None)] ∧
   ∃ format location,
     cfg_get (_config (feast_client false)) HISTORICAL_FEATURE_OUTPUT_FORMAT
       = Ok format ∧
     value (compute_output_location (DataFrame:=Frame) collaborators
              (feast_client false) None fresh) = Ok location ∧
     trace (get_historical_features collaborators (feast_client false)
              mixed_refs (InMemory entities) None fresh)
     = trace (stage_entity_source collaborators (feast_client false)
                (InMemory entities) (map ft_batch_source mixed_tables) fresh)
       ++ [Launch (launcher.start_historical_feature_retrieval_job
                     (project (feast_client false))
                     (BigQuerySource "event_timestamp" None
                        "gcp-project:warehouse.entities")
                     mixed_tables format location)]) ∧
  (requested (ListJobsRequest true None) None
     (list_jobs collaborators (feast_client true) true None fresh) ∧
   ∃ format location,
     cfg_get (_config (feast_client true)) HISTORICAL_FEATURE_OUTPUT_FORMAT
       = Ok format ∧
     value (compute_output_location (DataFrame:=Frame) collaborators
              (feast_client true) None fresh) = Ok location ∧
     requested
       (GetHistoricalFeaturesRequest mixed_refs
          (BigQuerySource "event_timestamp" None
             "gcp-project:warehouse.entities")
          (project (feast_client true)) format location)
       (Some (_extra_grpc_params (feast_client true)))
       (get_historical_features collaborators (feast_client true)
          mixed_refs (InMemory entities) None fresh)).
Proof.
  split.
  - destruct (dispatch_follows_job_service_url collaborators
                (feast_client false))
      as (_ & _ & _ & _ & _ & _ & Hlocal & _).
    assert (_use_job_service (feast_client false) = false) as Hmode
      by reflexivity.
    destruct (Hlocal Hmode fresh) as (_ & _ & Hlist & _ & Hretrieval).
    split; [apply Hlist|].
    apply (Hretrieval mixed_refs (InMemory entities) None mixed_tables).
    + exact failing_reaches_staging.
    + vm_compute. reflexivity.
  - destruct (dispatch_follows_job_service_url collaborators
                (feast_client true))
      as (_ & _ & _ & _ & _ & _ & _ & Hremote).
    assert (_use_job_service (feast_client true) = true) as Hmode
      by reflexivity.
    assert (_job_service_stub fresh = None) as Hstub by reflexivity.
    assert (configured_channel (feast_client true) = Ok channel) as Hch
      by reflexivity.
    destruct (Hremote Hmode fresh channel Hstub Hch)
      as (_ & _ & Hlist & _ & Hretrieval).
    split; [apply Hlist|].
    apply (Hretrieval mixed_refs (InMemory entities) None mixed_tables).
    + exact mixed_reaches_staging.
    + vm_compute. reflexivity.
Defined.

End Mode_witnesses.
